(** * dbus_aurora_pvinverter: the acquisition-and-publication cycle

    A shallow embedding of [dbus_aurora_pvinverter.py]: the Python numbers
    the service handles (binary64 floats, unbounded ints, [round], [str]),
    the Aurora client as a table of replies, the D-Bus registry the service
    publishes into, the class [DbusDummyService] itself, and the periodic
    timer that drives it. *)

From Stdlib Require Import ZArith Ascii String List DecimalString Lia.
From Stdlib Require Import Floats.SpecFloat.
From stdpp Require Import gmap strings.

Local Open Scope Z_scope.

(** ** Python numbers *)

Module Py.

(** Python's [float] is IEEE-754 binary64. *)
Definition prec : Z := 53.
Definition emax : Z := 1024.
Definition float : Type := spec_float.

(** A Python number held in an attribute: an [int] or a [float]. *)
Inductive num : Type :=
  | PyInt (n : Z)
  | PyFloat (f : float).

(** [float(n)] for an int: the nearest double, ties to even.  (CPython
    raises OverflowError beyond the largest double; the ints met here are
    the class default 0 and 32-bit device counters.) *)
Definition float_of_Z (n : Z) : float := binary_normalize prec emax n 0 false.

Definition to_float (x : num) : float :=
  match x with
  | PyInt n => float_of_Z n
  | PyFloat f => f
  end.

(** [x / y] with a float divisor.  The divisors of the program are the
    non-zero literals 3.0, 1000.0 and 3000.0, so ZeroDivisionError does not
    arise. *)
Definition truediv (x : num) (y : float) : float :=
  SFdiv prec emax (to_float x) y.

(** The double nearest to the fraction [n / d] ([0 <= n], [0 < d]), with
    sign [s]: what reading a decimal string back yields. *)
Definition float_of_ratio (s : bool) (n d : Z) : float :=
  match n with
  | Z0 => S754_zero s
  | Zpos _ =>
      let '(q, e, l) := SFdiv_core_binary prec emax n 0 d 0 in
      binary_round_aux prec emax s q e l
  | Zneg _ => S754_nan
  end.

(** The double written [D * 10^q] in decimal. *)
Definition float_of_decimal (s : bool) (D q : Z) : float :=
  if 0 <=? q then float_of_ratio s (D * 10 ^ q) 1
  else float_of_ratio s D (10 ^ (- q)).

(** Float literals of the source. *)
Definition lit (D q : Z) : float := float_of_decimal false D q.
Definition f3_0 : float := lit 3 0.
Definition f1000_0 : float := lit 1000 0.
Definition f3000_0 : float := lit 3000 0.

(** [num / den] rounded to the nearest integer, ties to even. *)
Definition round_half_even (num den : Z) : Z :=
  let q := num / den in
  let r := num mod den in
  match (2 * r ?= den) with
  | Lt => q
  | Gt => q + 1
  | Eq => if Z.even q then q else q + 1
  end.

(** [float.__round__(x, ndigits)] for [0 <= ndigits]: the exact binary
    value is rounded to [ndigits] decimals, ties to even, and the decimal
    is read back as a double; nan, infinities and zeros are returned as
    they are. *)
Definition float_round (x : float) (ndigits : Z) : float :=
  match x with
  | S754_finite s m e =>
      let p := 10 ^ ndigits in
      let n := if 0 <=? e then Zpos m * 2 ^ e * p
               else round_half_even (Zpos m * p) (2 ^ (- e)) in
      float_of_ratio s n p
  | _ => x
  end.

(** [round(x, ndigits)] on a number: an int is returned unchanged when
    [0 <= ndigits]. *)
Definition round (x : num) (ndigits : Z) : num :=
  match x with
  | PyInt n => PyInt n
  | PyFloat f => PyFloat (float_round f ndigits)
  end.

(** *** [str] *)

Definition str_int (n : Z) : string := NilZero.string_of_int (Z.to_int n).

Fixpoint zeros (n : nat) : string :=
  match n with
  | O => EmptyString
  | S k => String "0"%char (zeros k)
  end.

Fixpoint take (n : nat) (s : string) : string :=
  match n, s with
  | S k, String c r => String c (take k r)
  | _, _ => EmptyString
  end.

Fixpoint drop (n : nat) (s : string) : string :=
  match n, s with
  | S k, String _ r => drop k r
  | _, _ => s
  end.

(** The least [j >= j0] with [den <= num * 10^j]. *)
Fixpoint scale_up (fuel : nat) (num den j : Z) : Z :=
  match fuel with
  | O => j
  | S k => if den <=? num * 10 ^ j then j else scale_up k num den (j + 1)
  end.

(** [decpt] with [10^(decpt-1) <= num/den < 10^decpt]. *)
Definition decimal_point (num den : Z) : Z :=
  if den <=? num
  then Z.of_nat (String.length (str_int (num / den)))
  else 1 - scale_up 400 num den 1.

Definition float_eqb (x y : float) : bool :=
  match x, y with
  | S754_zero a, S754_zero b => Bool.eqb a b
  | S754_infinity a, S754_infinity b => Bool.eqb a b
  | S754_nan, S754_nan => true
  | S754_finite a m e, S754_finite b m' e' =>
      Bool.eqb a b && Pos.eqb m m' && Z.eqb e e'
  | _, _ => false
  end.

(** The [k]-digit decimal nearest to [num/den] that reads back as [x], if
    one of the two neighbours does: the digits as an integer and the
    power of ten they are scaled by. *)
Definition shortest_at (x : float) (num den decpt k : Z) : option (Z * Z) :=
  let q := decpt - k in
  let '(n', d') := if 0 <=? q then (num, den * 10 ^ q)
                   else (num * 10 ^ (- q), den) in
  let lo := n' / d' in
  let hi := lo + 1 in
  let r := n' mod d' in
  let oklo := float_eqb (float_of_decimal false lo q) x in
  let okhi := float_eqb (float_of_decimal false hi q) x in
  match oklo, okhi with
  | true, true => Some (round_half_even n' d', q)
  | true, false => Some (lo, q)
  | false, true => Some (hi, q)
  | false, false => None
  end.

Fixpoint shortest_from (fuel : nat) (x : float) (num den decpt k : Z)
  : Z * Z :=
  match fuel with
  | O => (0, 0)
  | S f =>
      match shortest_at x num den decpt k with
      | Some r => r
      | None => shortest_from f x num den decpt (k + 1)
      end
  end.

Fixpoint strip_zeros (fuel : nat) (D q : Z) : Z * Z :=
  match fuel with
  | O => (D, q)
  | S f => if (D mod 10 =? 0) && (0 <? D) then strip_zeros f (D / 10) (q + 1)
           else (D, q)
  end.

(** The shortest digit string that reads back as the positive double
    [m * 2^e], and the position of its decimal point. *)
Definition shortest_digits (m : positive) (e : Z) : string * Z :=
  let x := binary_round prec emax false m e in
  let '(num, den) := if 0 <=? e then (Zpos m * 2 ^ e, 1)
                     else (Zpos m, 2 ^ (- e)) in
  let decpt := decimal_point num den in
  let '(D, q) := shortest_from 17 x num den decpt 1 in
  let '(D, q) := strip_zeros 20 D q in
  let ds := str_int D in
  (ds, q + Z.of_nat (String.length ds)).

Definition exponent_str (e : Z) : string :=
  let sign : string := if e <? 0 then "-" else "+" in
  let pad : string := if Z.abs e <? 10 then "0" else EmptyString in
  sign +:+ pad +:+ str_int (Z.abs e).

(** [repr(x)] of a float, which is also its [str]. *)
Definition str_float (x : float) : string :=
  match x with
  | S754_nan => "nan"
  | S754_infinity s => if s then "-inf" else "inf"
  | S754_zero s => if s then "-0.0" else "0.0"
  | S754_finite s m e =>
      let '(ds, decpt) := shortest_digits m e in
      let n := String.length ds in
      let fixed : string :=
        if decpt <=? 0 then "0." +:+ zeros (Z.to_nat (- decpt)) +:+ ds
        else if Z.of_nat n <=? decpt
             then ds +:+ zeros (Z.to_nat decpt - n) +:+ ".0"
             else take (Z.to_nat decpt) ds +:+ "."
                  +:+ drop (Z.to_nat decpt) ds in
      let frac : string :=
        if (1 <? n)%nat then "." +:+ drop 1 ds else EmptyString in
      let expo : string :=
        take 1 ds +:+ frac +:+ "e" +:+ exponent_str (decpt - 1) in
      let body : string :=
        if (-4 <? decpt) && (decpt <=? 16) then fixed else expo in
      let sign : string := if s then "-" else EmptyString in
      sign +:+ body
  end.

Definition str (x : num) : string :=
  match x with
  | PyInt n => str_int n
  | PyFloat f => str_float f
  end.

End Py.

(** ** Exceptions *)

Inductive exn : Type :=
  | AuroraError (msg : string)
  | TypeError
  | DuplicatePathError (path : string)
  | UnknownPathError (path : string)
  | NotWritableError (path : string).

Inductive res (A : Type) : Type :=
  | Ok (a : A)
  | Raise (e : exn).
Arguments Ok {A} a.
Arguments Raise {A} e.

(** ** The state path registry ([VeDbusService]) *)

Module Registry.

Inductive value : Type :=
  | VNone
  | VInt (n : Z)
  | VFloat (f : Py.float)
  | VStr (s : string).

Definition of_num (x : Py.num) : value :=
  match x with
  | Py.PyInt n => VInt n
  | Py.PyFloat f => VFloat f
  end.

Definition formatter : Type := string -> value -> res string.
Definition hook : Type := string -> value -> bool.

(** Modelled from the spec: [VeDbusService] is imported from
    ext/velib_python and its code is missing; this is the PathCell of
    section 3, one entry of its registry. *)
Record PathCell : Type := mkCell {
  cell_value : value;
  cell_formatter : formatter;
  cell_writable : bool;
  cell_onChange : hook
}.

Definition with_value (v : value) (c : PathCell) : PathCell :=
  mkCell v (cell_formatter c) (cell_writable c) (cell_onChange c).

(** A change notification: the paths committed together and their values. *)
Definition notification : Type := list (string * value).

(** Modelled from the spec: the registry of section 4.1 with the
    notifications it has sent to its observers, oldest first. *)
Record VeDbusService : Type := mkBus {
  cells : gmap string PathCell;
  signals : list notification
}.

Definition empty : VeDbusService := mkBus ∅ [].

(** Modelled from the spec: the display string of a path registered
    without a formatter, and the hook of one registered without a hook
    (the defaults of [add_path]). *)
Definition default_formatter : formatter :=
  fun _ v =>
    match v with
    | VNone => Ok "None"%string
    | VInt n => Ok (Py.str_int n)
    | VFloat f => Ok (Py.str_float f)
    | VStr s => Ok s
    end.
Definition default_hook : hook := fun _ _ => true.

(** Modelled from the spec: [register(name, initialValue, formatter,
    writable, onChange)] of section 4.1; fails with DuplicatePathError on
    a name already registered. *)
Definition add_path (name : string) (initial : value)
    (gettextcallback : option formatter) (writeable : bool)
    (onchangecallback : option hook) (s : VeDbusService)
  : res VeDbusService :=
  match cells s !! name with
  | Some _ => Raise (DuplicatePathError name)
  | None =>
      Ok (mkBus (<[name := mkCell initial
                             (default default_formatter gettextcallback)
                             writeable
                             (default default_hook onchangecallback)]>
                   (cells s))
                (signals s))
  end.

(** Modelled from the spec: the cell of a path takes a new value; the
    formatter, the writable flag and the hook stay. *)
Definition set_value (m : gmap string PathCell) (w : string * value)
  : gmap string PathCell :=
  alter (with_value w.2) w.1 m.

(** Modelled from the spec: [requestWrite(name, proposedValue)] of
    section 4.1. *)
Definition requestWrite (name : string) (proposed : value)
    (s : VeDbusService) : res VeDbusService :=
  match cells s !! name with
  | None => Raise (UnknownPathError name)
  | Some c =>
      if negb (cell_writable c) then Raise (NotWritableError name)
      else if cell_onChange c name proposed
           then Ok (mkBus (set_value (cells s) (name, proposed))
                          (signals s ++ [[(name, proposed)]]))
           else Ok s
  end.

(** Modelled from the spec: [read(name)] of section 4.1: the current value
    and its formatted string. *)
Definition read (name : string) (s : VeDbusService)
  : res (value * res string) :=
  match cells s !! name with
  | None => Raise (UnknownPathError name)
  | Some c => Ok (cell_value c, cell_formatter c name (cell_value c))
  end.

Definition value_at (name : string) (s : VeDbusService) : option value :=
  cell_value <$> cells s !! name.

(** Modelled from the spec: the scoped change-batch of section 4.1, the
    object bound by [with self._dbusservice as s].  Observers keep seeing
    [base] while the batch is open. *)
Record ServiceContext : Type := mkCtx {
  base : VeDbusService;
  pending : notification
}.

Definition enter (s : VeDbusService) : ServiceContext := mkCtx s [].

(** Modelled from the spec: [s[path] = value] inside the batch. *)
Definition setitem (c : ServiceContext) (w : string * value)
  : res ServiceContext :=
  match cells (base c) !! w.1 with
  | None => Raise (UnknownPathError w.1)
  | Some _ => Ok (mkCtx (base c) (pending c ++ [w]))
  end.

Fixpoint setitems (c : ServiceContext) (ws : list (string * value))
  : res ServiceContext :=
  match ws with
  | [] => Ok c
  | w :: ws' =>
      match setitem c w with
      | Ok c' => setitems c' ws'
      | Raise e => Raise e
      end
  end.

(** Modelled from the spec: commit on normal exit: every pending write
    lands and one notification carries them all. *)
Definition commit (c : ServiceContext) : VeDbusService :=
  mkBus (foldl set_value (cells (base c)) (pending c))
        (signals (base c) ++ [pending c]).

(** What an observer of the bus sees while a batch is open. *)
Definition observable (c : ServiceContext) : VeDbusService := base c.

(** The last value written to [p] in a list of writes. *)
Fixpoint last_write (ws : list (string * value)) (p : string)
  : option value :=
  match ws with
  | [] => None
  | (q, v) :: ws' =>
      match last_write ws' p with
      | Some v' => Some v'
      | None => if String.eqb q p then Some v else None
      end
  end.

End Registry.

Import Registry.

(** ** The Aurora client *)

(** What one call of the client comes back with: a reply, or the
    AuroraError the client raises. *)
Inductive reply (A : Type) : Type :=
  | Reply (a : A)
  | Fail (msg : string).
Arguments Reply {A} a.
Arguments Fail {A} msg.

(** The calls that reach the serial transport. *)
Inductive event : Type :=
  | EvConnect
  | EvTimeDate
  | EvMeasure (channel : Z)
  | EvCumulatedEnergy (period : Z)
  | EvClose.

(** The inverter and its port as the client sees them during one cycle:
    what each call would be answered with, [close] included.  The clock is
    a timestamp that [datetime.fromtimestamp] accepts (the client adds a
    32-bit counter to the year 2000), or the offline marker -1. *)
Record AuroraSerialClient : Type := mkClient {
  connect_reply : reply unit;
  time_date_reply : reply Z;
  measure_reply : Z -> reply Py.num;
  cumulated_energy_reply : Z -> reply Py.num;
  close_reply : reply unit
}.

(** ** The service *)

(** The attributes of [DbusDummyService] together with what the process
    has sent to the transport and to the error log. *)
Record world : Type := mkWorld {
  grid_voltage : Py.num;
  grid_current : Py.num;
  grid_power : Py.num;
  cum_energy_total : Py.num;
  _dbusservice : VeDbusService;
  wire : list event;
  errlog : list string
}.

Definition set_grid_voltage (v : Py.num) (w : world) : world :=
  mkWorld v (grid_current w) (grid_power w) (cum_energy_total w)
          (_dbusservice w) (wire w) (errlog w).
Definition set_grid_current (v : Py.num) (w : world) : world :=
  mkWorld (grid_voltage w) v (grid_power w) (cum_energy_total w)
          (_dbusservice w) (wire w) (errlog w).
Definition set_grid_power (v : Py.num) (w : world) : world :=
  mkWorld (grid_voltage w) (grid_current w) v (cum_energy_total w)
          (_dbusservice w) (wire w) (errlog w).
Definition set_cum_energy_total (v : Py.num) (w : world) : world :=
  mkWorld (grid_voltage w) (grid_current w) (grid_power w) v
          (_dbusservice w) (wire w) (errlog w).
Definition set_dbusservice (s : VeDbusService) (w : world) : world :=
  mkWorld (grid_voltage w) (grid_current w) (grid_power w)
          (cum_energy_total w) s (wire w) (errlog w).
Definition send (e : event) (w : world) : world :=
  mkWorld (grid_voltage w) (grid_current w) (grid_power w)
          (cum_energy_total w) (_dbusservice w) (wire w ++ [e]) (errlog w).
Definition log_error (msg : string) (w : world) : world :=
  mkWorld (grid_voltage w) (grid_current w) (grid_power w)
          (cum_energy_total w) (_dbusservice w) (wire w) (errlog w ++ [msg]).

(** Statements: a step on the world that returns or raises. *)
Definition M (A : Type) : Type := world -> res A * world.

Definition ret {A} (a : A) : M A := fun w => (Ok a, w).
Definition raise {A} (e : exn) : M A := fun w => (Raise e, w).
Definition bind {A B} (m : M A) (k : A -> M B) : M B :=
  fun w =>
    match m w with
    | (Ok a, w') => k a w'
    | (Raise e, w') => (Raise e, w')
    end.
Definition modify (f : world -> world) : M unit := fun w => (Ok tt, f w).

Declare Scope stmt_scope.
Delimit Scope stmt_scope with stmt.
Notation "x <- m ;; k" := (bind m (fun x => k))
  (at level 100, m at next level, right associativity) : stmt_scope.
Notation "m ;; k" := (bind m (fun _ => k))
  (at level 100, right associativity) : stmt_scope.
Local Open Scope stmt_scope.

(** [try: body  except AuroraError as e: handler e]. *)
Definition try_except_AuroraError {A} (body : M A) (handler : string -> M A)
  : M A :=
  fun w =>
    match body w with
    | (Raise (AuroraError msg), w') => handler msg w'
    | r => r
    end.

(** [try: body  finally: final]: [final] runs on every way out of [body];
    an exception of [body] is raised again after it. *)
Definition try_finally {A} (body : M A) (final : M unit) : M A :=
  fun w =>
    match body w with
    | (r, w') =>
        match final w' with
        | (Ok _, w'') => (r, w'')
        | (Raise e, w'') => (Raise e, w'')
        end
    end.

Definition of_reply {A} (r : reply A) : M A :=
  match r with
  | Reply a => ret a
  | Fail msg => raise (AuroraError msg)
  end.

Definition connect (c : AuroraSerialClient) : M unit :=
  modify (send EvConnect) ;; of_reply (connect_reply c).
Definition time_date (c : AuroraSerialClient) : M Z :=
  modify (send EvTimeDate) ;; of_reply (time_date_reply c).
Definition measure (c : AuroraSerialClient) (channel : Z) : M Py.num :=
  modify (send (EvMeasure channel)) ;; of_reply (measure_reply c channel).
Definition cumulated_energy (c : AuroraSerialClient) (period : Z)
  : M Py.num :=
  modify (send (EvCumulatedEnergy period)) ;;
  of_reply (cumulated_energy_reply c period).
Definition close (c : AuroraSerialClient) : M unit :=
  modify (send EvClose) ;; of_reply (close_reply c).

(** [logging.error(msg)].  The [logging.debug] calls of the source leave
    no trace at the INFO level [main] configures, and evaluating their
    arguments has no effect, so they are left out. *)
Definition logging_error (msg : string) : M unit := modify (log_error msg).

(** [DbusDummyService._getInverterData]. *)
Definition _getInverterData (client : AuroraSerialClient) : M bool :=
  try_finally
    (try_except_AuroraError
       (connect client ;;
        client_time <- time_date client ;;
        if negb (client_time =? -1) then
          v <- measure client 1 ;;
          modify (set_grid_voltage v) ;;
          i <- measure client 2 ;;
          modify (set_grid_current i) ;;
          p <- measure client 3 ;;
          modify (set_grid_power p) ;;
          e <- cumulated_energy client 5 ;;
          modify (set_cum_energy_total e)
        else
          close client)
       (fun msg => logging_error msg))
    (close client) ;;
  ret true.

(** [round(x, 2)] as it is assigned to a path, and [x / d]. *)
Definition rounded (x : Py.num) : value := of_num (Py.round x 2).
Definition over (x : Py.num) (d : Py.float) : Py.num :=
  Py.PyFloat (Py.truediv x d).

(** The assignments in the [with] block of [_update], in program order:
    each path with its right-hand side. *)
Definition derived (w : world) : list (string * value) :=
  [ ("/Ac/Power", rounded (grid_power w));
    ("/Ac/Current", rounded (grid_current w));
    ("/Ac/L1/Voltage", rounded (grid_voltage w));
    ("/Ac/L1/Current", rounded (over (grid_current w) Py.f3_0));
    ("/Ac/L1/Power", rounded (over (grid_power w) Py.f3_0));
    ("/Ac/L2/Voltage", rounded (grid_voltage w));
    ("/Ac/L2/Current", rounded (over (grid_current w) Py.f3_0));
    ("/Ac/L2/Power", rounded (over (grid_power w) Py.f3_0));
    ("/Ac/L3/Voltage", rounded (grid_voltage w));
    ("/Ac/L3/Current", rounded (over (grid_current w) Py.f3_0));
    ("/Ac/L3/Power", rounded (over (grid_power w) Py.f3_0));
    ("/Ac/Energy/Forward", rounded (over (cum_energy_total w) Py.f1000_0));
    ("/Ac/L1/Energy/Forward",
     rounded (over (cum_energy_total w) Py.f3000_0));
    ("/Ac/L2/Energy/Forward",
     rounded (over (cum_energy_total w) Py.f3000_0));
    ("/Ac/L3/Energy/Forward",
     rounded (over (cum_energy_total w) Py.f3000_0));
    ("/Ac/MaxPower", VInt 10000);
    ("/StatusCode", VInt 7) ]%string.

(** [with self._dbusservice as s: s[p1] = v1; ...]: the batch is opened,
    every assignment is recorded, and the batch is committed when the block
    is left normally. *)
Definition with_dbusservice (body : world -> list (string * value))
  : M unit :=
  fun w =>
    match setitems (enter (_dbusservice w)) (body w) with
    | Ok c => (Ok tt, set_dbusservice (commit c) w)
    | Raise e => (Raise e, w)
    end.

(** [DbusDummyService._update]. *)
Definition _update (client : AuroraSerialClient) : M bool :=
  _getInverterData client ;;
  with_dbusservice derived ;;
  ret true.

(** [DbusDummyService._handlechangedvalue]: the [logging.debug] call
    aside, it accepts the change. *)
Definition _handlechangedvalue (path : string) (v : value) : bool := true.

(** ** The timer of the main loop *)

(** [GLib.timeout_add(interval, callback)]: the callback is dispatched
    once per period for as long as it returns True; when it returns False,
    or lets an exception out, the source is destroyed.  The argument of the
    callback stands for the inverter's behaviour during that dispatch. *)
Inductive phase : Type := Idle | Running.

Record timeout : Type := mkTimeout {
  interval_ms : Z;
  callback : AuroraSerialClient -> M bool;
  alive : bool;
  state : phase;
  dispatched : nat;
  uncaught : list exn
}.

Definition timeout_add (interval : Z) (f : AuroraSerialClient -> M bool)
  : timeout :=
  mkTimeout interval f true Idle 0 [].

(** The timer fires: Idle -> Running. *)
Definition fire (t : timeout) : timeout :=
  mkTimeout (interval_ms t) (callback t) (alive t) Running
            (dispatched t) (uncaught t).

(** The callback runs and the loop takes its outcome: Running -> Idle. *)
Definition finish (client : AuroraSerialClient) (tw : timeout * world)
  : timeout * world :=
  let '(t, w) := tw in
  match callback t client w with
  | (Ok b, w') =>
      (mkTimeout (interval_ms t) (callback t) b Idle
                 (S (dispatched t)) (uncaught t), w')
  | (Raise e, w') =>
      (mkTimeout (interval_ms t) (callback t) false Idle
                 (S (dispatched t)) (uncaught t ++ [e]), w')
  end.

(** One period of the loop: nothing happens once the source is gone. *)
Definition tick (client : AuroraSerialClient) (tw : timeout * world)
  : timeout * world :=
  if alive tw.1 then finish client (fire tw.1, tw.2) else tw.

(** ** Start-up *)

Record settings : Type := mkSettings {
  initial : value;
  textformat : formatter
}.

(** What the process reads from its surroundings at start-up. *)
Record environment : Type := mkEnv {
  __file__ : string;
  python_version : string
}.

(** A run of [add_path] calls, in order; the first failure ends it. *)
Definition add_paths {A} (add : A -> VeDbusService -> res VeDbusService)
  : list A -> VeDbusService -> res VeDbusService :=
  fix go ps s :=
    match ps with
    | [] => Ok s
    | p :: ps' =>
        match add p s with
        | Ok s' => go ps' s'
        | Raise e => Raise e
        end
    end.

(** [DbusDummyService.__init__]. *)
Definition __init__ (env : environment) (servicename : string)
    (deviceinstance : Z) (paths : list (string * settings))
    (productname connection : string) (productid : Z)
  : res (timeout * world) :=
  let fixed : list (string * value) :=
    [ ("/Mgmt/ProcessName", VStr (__file__ env));
      ("/Mgmt/ProcessVersion",
       VStr ("Unkown version, and running on Python "
             +:+ python_version env));
      ("/Mgmt/Connection", VStr connection);
      ("/DeviceInstance", VInt deviceinstance);
      ("/ProductId", VInt productid);
      ("/ProductName", VStr productname);
      ("/FirmwareVersion", VInt 0);
      ("/HardwareVersion", VInt 0);
      ("/Connected", VInt 1);
      ("/Position", VInt 0);
      ("/StatusCode", VInt 0);
      ("/Role", VStr "pvinverter");
      ("/DbusInvalid", VNone) ]%string in
  match add_paths (fun p => add_path p.1 p.2 None false None)
                  fixed Registry.empty with
  | Raise e => Raise e
  | Ok s =>
      match add_paths
              (fun p => add_path p.1 (initial p.2) (Some (textformat p.2))
                                 true (Some _handlechangedvalue))
              paths s with
      | Raise e => Raise e
      | Ok s' =>
          Ok (timeout_add 10000 _update,
              mkWorld (Py.PyInt 0) (Py.PyInt 0) (Py.PyInt 0) (Py.PyInt 0)
                      s' [] [])
      end
  end.

(** [round(v, ndigits)] on a published value: None and strings have no
    [__round__]. *)
Definition round_value (v : value) (ndigits : Z) : res Py.num :=
  match v with
  | VInt n => Ok (Py.round (Py.PyInt n) ndigits)
  | VFloat f => Ok (Py.round (Py.PyFloat f) ndigits)
  | VNone | VStr _ => Raise TypeError
  end.

Definition str_round_unit (ndigits : Z) (unit : string) : formatter :=
  fun _ v =>
    match round_value v ndigits with
    | Ok x => Ok (Py.str x +:+ unit)
    | Raise e => Raise e
    end.

(** The four formatting lambdas of [main]. *)
Definition _kwh : formatter := str_round_unit 2 "kWh".
Definition _a : formatter := str_round_unit 1 "A".
Definition _w : formatter := str_round_unit 1 "W".
Definition _v : formatter := str_round_unit 1 "V".

(** The [paths] dictionary of [main], in the order it is written. *)
Definition main_paths : list (string * settings) :=
  [ ("/Ac/Power", mkSettings (VInt 0) _w);
    ("/Ac/Current", mkSettings (VInt 0) _a);
    ("/Ac/L1/Voltage", mkSettings (VInt 0) _v);
    ("/Ac/L1/Current", mkSettings (VInt 0) _a);
    ("/Ac/L1/Power", mkSettings (VInt 0) _w);
    ("/Ac/L2/Voltage", mkSettings (VInt 0) _v);
    ("/Ac/L2/Current", mkSettings (VInt 0) _a);
    ("/Ac/L2/Power", mkSettings (VInt 0) _w);
    ("/Ac/L3/Voltage", mkSettings (VInt 0) _v);
    ("/Ac/L3/Current", mkSettings (VInt 0) _a);
    ("/Ac/L3/Power", mkSettings (VInt 0) _w);
    ("/Ac/Energy/Forward", mkSettings VNone _kwh);
    ("/Ac/L1/Energy/Forward", mkSettings VNone _kwh);
    ("/Ac/L2/Energy/Forward", mkSettings VNone _kwh);
    ("/Ac/L3/Energy/Forward", mkSettings VNone _kwh);
    ("/Ac/MaxPower", mkSettings (VInt 0) _w) ]%string.

(** [main], up to the point where the main loop takes over. *)
Definition main (env : environment) : res (timeout * world) :=
  __init__ env "com.victronenergy.pvinverter.ttyUSB0" 0 main_paths
           "Aurora PV-Inverter" "ttyUSB0" 45069.

(** ** The paths of a cycle *)

Definition update_paths : list string :=
  [ "/Ac/Power"; "/Ac/Current";
    "/Ac/L1/Voltage"; "/Ac/L1/Current"; "/Ac/L1/Power";
    "/Ac/L2/Voltage"; "/Ac/L2/Current"; "/Ac/L2/Power";
    "/Ac/L3/Voltage"; "/Ac/L3/Current"; "/Ac/L3/Power";
    "/Ac/Energy/Forward"; "/Ac/L1/Energy/Forward";
    "/Ac/L2/Energy/Forward"; "/Ac/L3/Energy/Forward";
    "/Ac/MaxPower"; "/StatusCode" ]%string.

Definition has_path (s : VeDbusService) (p : string) : bool :=
  match cells s !! p with
  | Some _ => true
  | None => false
  end.

(** Every path a cycle writes is registered: what [main] establishes and
    every operation of the registry keeps. *)
Definition schema_ok (s : VeDbusService) : bool :=
  forallb (has_path s) update_paths.

(** The world a cycle leaves behind, and the world after acquisition
    alone. *)
Definition after_update (c : AuroraSerialClient) (w : world) : world :=
  (_update c w).2.
Definition after_acquire (c : AuroraSerialClient) (w : world) : world :=
  (_getInverterData c w).2.

Arguments after_update : simpl never.
Arguments after_acquire : simpl never.

(** The four measurement attributes. *)
Definition fields (x : world) : Py.num * Py.num * Py.num * Py.num :=
  (grid_voltage x, grid_current x, grid_power x, cum_energy_total x).

(** The world on leaving the [with] block of [_update] normally. *)
Definition published (w : world) : world :=
  set_dbusservice (commit (mkCtx (_dbusservice w) (derived w))) w.

(** A Reading: the four aggregates of one acquisition, and the cycle's
    publication of it. *)
Record Reading : Type := mkReading {
  reading_voltage : Py.num;
  reading_current : Py.num;
  reading_power : Py.num;
  reading_energy : Py.num
}.

Definition with_reading (r : Reading) (w : world) : world :=
  set_cum_energy_total (reading_energy r)
    (set_grid_power (reading_power r)
       (set_grid_current (reading_current r)
          (set_grid_voltage (reading_voltage r) w))).

Definition publish_reading (r : Reading) (w : world) : world :=
  published (with_reading r w).

(** A path whose cell takes external writes through the service's hook. *)
Definition accepting (s : VeDbusService) (p : string) : Prop :=
  ∃ c, cells s !! p = Some c ∧ cell_writable c = true
       ∧ cell_onChange c = _handlechangedvalue.

(** What happens between two periods of the timer: a tick, or a write
    from another process. *)
Inductive activity : Type :=
  | Tick (client : AuroraSerialClient)
  | ExternalWrite (path : string) (v : value).

Definition perform (tw : timeout * world) (a : activity) : timeout * world :=
  match a with
  | Tick c => tick c tw
  | ExternalWrite p v =>
      match requestWrite p v (_dbusservice tw.2) with
      | Ok s => (tw.1, set_dbusservice s tw.2)
      | Raise _ => tw
      end
  end.

(** The world [main] hands to the main loop, with its timer (start-up
    does not fail: [main_started] below). *)
Definition started (env : environment) : timeout * world :=
  match main env with
  | Ok tw => tw
  | Raise _ =>
      (timeout_add 10000 _update,
       mkWorld (Py.PyInt 0) (Py.PyInt 0) (Py.PyInt 0) (Py.PyInt 0)
               Registry.empty [] [])
  end.

(** The per-phase paths. *)
Definition voltage_paths : list string :=
  [ "/Ac/L1/Voltage"; "/Ac/L2/Voltage"; "/Ac/L3/Voltage" ]%string.
Definition current_paths : list string :=
  [ "/Ac/L1/Current"; "/Ac/L2/Current"; "/Ac/L3/Current" ]%string.
Definition power_paths : list string :=
  [ "/Ac/L1/Power"; "/Ac/L2/Power"; "/Ac/L3/Power" ]%string.
Definition energy_paths : list string :=
  [ "/Ac/L1/Energy/Forward"; "/Ac/L2/Energy/Forward";
    "/Ac/L3/Energy/Forward" ]%string.

(** ** Inverters used in the examples *)

Definition example_env : environment :=
  mkEnv "/data/dbus_aurora_pvinverter/dbus_aurora_pvinverter.py" "3.8.13".

(** An inverter that answers the clock with [t] and the four requests
    with [v], [i], [p] and [e], on a port that opens and closes. *)
Definition inverter (t : reply Z) (v i p e : reply Py.num)
  : AuroraSerialClient :=
  mkClient (Reply tt) t
    (fun channel =>
       if channel =? 1 then v
       else if channel =? 2 then i
       else if channel =? 3 then p
       else Fail "unknown channel")
    (fun period => if period =? 5 then e else Fail "unknown period")
    (Reply tt).

(** The same behaviour with another answer to [close]. *)
Definition with_close (r : reply unit) (c : AuroraSerialClient)
  : AuroraSerialClient :=
  mkClient (connect_reply c) (time_date_reply c) (measure_reply c)
           (cumulated_energy_reply c) r.

Definition float_reply (D q : Z) : reply Py.num :=
  Reply (Py.PyFloat (Py.lit D q)).

(** Reading(V=230.0, I=15.0, P=3450.0, E=120500.0). *)
Definition scenario : AuroraSerialClient :=
  inverter (Reply 770000000) (float_reply 230 0) (float_reply 15 0)
           (float_reply 3450 0) (float_reply 120500 0).

(** No device on the port: [connect] raises; closing the port that
    never opened does nothing. *)
Definition absent : AuroraSerialClient :=
  mkClient (Fail "could not open port") (Fail "port is not open")
           (fun _ => Fail "port is not open")
           (fun _ => Fail "port is not open")
           (Reply tt).

(** The power request fails; the others would be answered with
    231.0 V, 16.0 A and 120600.0 Wh. *)
Definition power_fails : AuroraSerialClient :=
  inverter (Reply 770000010) (float_reply 231 0) (float_reply 16 0)
           (Fail "Reading Timeout") (float_reply 120600 0).

(** Reading(V=230.456, I=15.254, P=3450.128, E=120512.3): values that
    rounding to two decimals changes. *)
Definition unrounded : AuroraSerialClient :=
  inverter (Reply 770000020) (float_reply 230456 (-3))
           (float_reply 15254 (-3)) (float_reply 3450128 (-3))
           (float_reply 1205123 (-1)).

(** The inverter answers as in the scenario, and closing the port
    raises. *)
Definition close_fails : AuroraSerialClient :=
  with_close (Fail "could not close port") scenario.

(** The ticks among a sequence of activities. *)
Fixpoint count_ticks (acts : list activity) : nat :=
  match acts with
  | [] => O
  | Tick _ :: acts' => S (count_ticks acts')
  | ExternalWrite _ _ :: acts' => count_ticks acts'
  end.

(** The [close] of a session does not raise. *)
Definition closes (c : AuroraSerialClient) : bool :=
  match close_reply c with
  | Reply _ => true
  | Fail _ => false
  end.

(** No [close] raises in any tick of a sequence of activities. *)
Fixpoint ticks_close (acts : list activity) : bool :=
  match acts with
  | [] => true
  | Tick c :: acts' => closes c && ticks_close acts'
  | ExternalWrite _ _ :: acts' => ticks_close acts'
  end.

(** The timer of the service in working order, over a registry that knows
    the paths of a cycle. *)
Definition healthy (tw : timeout * world) : Prop :=
  callback tw.1 = _update
  ∧ interval_ms tw.1 = 10000
  ∧ alive tw.1 = true
  ∧ state tw.1 = Idle
  ∧ uncaught tw.1 = []
  ∧ schema_ok (_dbusservice tw.2) = true.

(** ** Sessions on the transport *)

(** The requests of a session with an inverter that is online, in program
    order. *)
Definition protocol : list event :=
  [ EvTimeDate; EvMeasure 1; EvMeasure 2; EvMeasure 3; EvCumulatedEnergy 5 ].

(** The inverter answers the clock with the offline marker. *)
Definition offline (c : AuroraSerialClient) : bool :=
  match connect_reply c, time_date_reply c with
  | Reply _, Reply t => t =? -1
  | _, _ => false
  end.

(** The message of the first call inside the try block that fails, if
    one does: connect, the clock request, then either the close of the
    offline branch or the four measurement requests. *)
Definition first_failure (c : AuroraSerialClient) : option string :=
  match connect_reply c with
  | Fail m => Some m
  | Reply _ =>
    match time_date_reply c with
    | Fail m => Some m
    | Reply t =>
      if t =? -1 then
        match close_reply c with
        | Fail m => Some m
        | Reply _ => None
        end
      else
        match measure_reply c 1 with
        | Fail m => Some m
        | Reply _ =>
          match measure_reply c 2 with
          | Fail m => Some m
          | Reply _ =>
            match measure_reply c 3 with
            | Fail m => Some m
            | Reply _ =>
              match cumulated_energy_reply c 5 with
              | Fail m => Some m
              | Reply _ => None
              end
            end
          end
        end
    end
  end.

(** The session ends before the first measurement is answered. *)
Definition obtains_nothing (c : AuroraSerialClient) : bool :=
  match connect_reply c with
  | Fail _ => true
  | Reply _ =>
    match time_date_reply c with
    | Fail _ => true
    | Reply t =>
      (t =? -1) || match measure_reply c 1 with
                   | Fail _ => true
                   | Reply _ => false
                   end
    end
  end.

(** Cycles in a row, one inverter behaviour each. *)
Definition cycles (cs : list AuroraSerialClient) (w : world) : world :=
  foldl (fun x c => after_update c x) w cs.

(** How many requests of the protocol a session sends: none when the
    port does not open, the clock request alone when it fails or reports
    the offline marker, and otherwise the requests up to and including the
    first that fails. *)
Definition requests_sent (c : AuroraSerialClient) : nat :=
  match connect_reply c with
  | Fail _ => 0
  | Reply _ =>
    match time_date_reply c with
    | Fail _ => 1
    | Reply t =>
      if t =? -1 then 1
      else
        match measure_reply c 1 with
        | Fail _ => 2
        | Reply _ =>
          match measure_reply c 2 with
          | Fail _ => 3
          | Reply _ =>
            match measure_reply c 3 with
            | Fail _ => 4
            | Reply _ => 5
            end
          end
        end
    end
  end.

(** What a session sends to the transport: the connect, the requests,
    and one close, or two after the offline marker. *)
Definition transcript (c : AuroraSerialClient) : list event :=
  EvConnect :: take (requests_sent c) protocol
            ++ (if offline c then [EvClose; EvClose] else [EvClose]).

(** The ticks the timer dispatches, with the inverter behaviour of each:
    once a callback has let an error out, the source is gone. *)
Fixpoint dispatched_ticks (acts : list activity)
  : list AuroraSerialClient :=
  match acts with
  | [] => []
  | Tick c :: acts' => c :: (if closes c then dispatched_ticks acts' else [])
  | ExternalWrite _ _ :: acts' => dispatched_ticks acts'
  end.

(** What a write leaves of a cell: formatter, writable flag and hook. *)
Definition static (cl : PathCell) : formatter * bool * hook :=
  (cell_formatter cl, cell_writable cl, cell_onChange cl).

(** The paths [__init__] registers whatever its [paths] argument is. *)
Definition fixed_paths : list string :=
  [ "/Mgmt/ProcessName"; "/Mgmt/ProcessVersion"; "/Mgmt/Connection";
    "/DeviceInstance"; "/ProductId"; "/ProductName"; "/FirmwareVersion";
    "/HardwareVersion"; "/Connected"; "/Position"; "/StatusCode"; "/Role";
    "/DbusInvalid" ]%string.

(** The values [__init__] registers them with. *)
Definition fixed_values (env : environment) (deviceinstance : Z)
    (productname connection : string) (productid : Z)
  : list (string * value) :=
  [ ("/Mgmt/ProcessName", VStr (__file__ env));
    ("/Mgmt/ProcessVersion",
     VStr ("Unkown version, and running on Python "
           +:+ python_version env));
    ("/Mgmt/Connection", VStr connection);
    ("/DeviceInstance", VInt deviceinstance);
    ("/ProductId", VInt productid);
    ("/ProductName", VStr productname);
    ("/FirmwareVersion", VInt 0);
    ("/HardwareVersion", VInt 0);
    ("/Connected", VInt 1);
    ("/Position", VInt 0);
    ("/StatusCode", VInt 0);
    ("/Role", VStr "pvinverter");
    ("/DbusInvalid", VNone) ]%string.

(** The paths a cycle divides by a float literal. *)
Definition divided_paths : list string :=
  current_paths ++ power_paths ++ ("/Ac/Energy/Forward"%string :: energy_paths).

(** An inverter that is reachable and reports the offline marker. *)
Definition asleep : AuroraSerialClient :=
  inverter (Reply (-1)) (float_reply 231 0) (float_reply 16 0)
           (float_reply 3680 0) (float_reply 120600 0).

(** * Properties *)

(** ** Python numbers *)

(** [round] goes to the nearest decimal of the exact binary value, ties
    to even: round(0.125, 2) is 0.12, round(0.375, 2) is 0.38,
    round(2.675, 2) is 2.67 (the double lies below 2.675), round(-0.001, 2)
    is -0.0; an int is returned as it is. *)
Lemma round_examples :
  Py.float_round (Py.lit 125 (-3)) 2 = Py.lit 12 (-2)
  ∧ Py.float_round (Py.lit 375 (-3)) 2 = Py.lit 38 (-2)
  ∧ Py.float_round (Py.lit 2675 (-3)) 2 = Py.lit 267 (-2)
  ∧ Py.float_round (SFopp (Py.lit 1 (-3))) 2 = S754_zero true
  ∧ Py.round (Py.PyInt 0) 2 = Py.PyInt 0.
Proof. vm_compute. repeat split; reflexivity. Qed.

(** [str] of a float is its shortest decimal that reads back. *)
Lemma str_examples :
  Py.str_float (Py.lit 1 (-1)) = "0.1"%string
  ∧ Py.str_float (Py.truediv (Py.PyInt 1) Py.f3_0)
    = "0.3333333333333333"%string
  ∧ Py.str_float (Py.lit 1 16) = "1e+16"%string
  ∧ Py.str_float (Py.lit 1 (-5)) = "1e-05"%string
  ∧ Py.str_float (Py.lit 5 (-324)) = "5e-324"%string
  ∧ Py.str (Py.PyInt 10000) = "10000"%string.
Proof. vm_compute. repeat split; reflexivity. Qed.

(** ** The registry *)

Section RegistryFacts.

Implicit Types (m : gmap string PathCell) (s : VeDbusService).
Implicit Types (ws : list (string * value)) (p : string).

Lemma with_value_twice (v v' : value) (c : PathCell) :
  with_value v' (with_value v c) = with_value v' c.
Proof. by destruct c. Qed.

Lemma lookup_set_value m (q : string) (v : value) p :
  set_value m (q, v) !! p
  = if String.eqb q p then with_value v <$> m !! p else m !! p.
Proof.
  unfold set_value; simpl. rewrite lookup_alter.
  destruct (String.eqb_spec q p) as [->|Hne]; case_decide; congruence.
Qed.

Lemma lookup_foldl_set_value ws : ∀ m p,
  foldl set_value m ws !! p
  = match last_write ws p with
    | Some v => with_value v <$> m !! p
    | None => m !! p
    end.
Proof.
  induction ws as [|[q v] ws IH]; intros m p; simpl; [done|].
  rewrite IH, lookup_set_value.
  destruct (last_write ws p) as [v'|]; destruct (String.eqb q p); try done.
  destruct (m !! p) as [c|]; simpl; [|done].
  by rewrite with_value_twice.
Qed.

Lemma has_path_set_value m (sg sg' : list notification)
    (w : string * value) p :
  has_path (mkBus (set_value m w) sg) p = has_path (mkBus m sg') p.
Proof.
  destruct w as [q v]. unfold has_path; simpl. rewrite lookup_set_value.
  destruct (String.eqb q p); destruct (m !! p); done.
Qed.

Lemma setitems_registered ws : ∀ (c : ServiceContext),
  forallb (has_path (base c)) (map fst ws) = true →
  setitems c ws = Ok (mkCtx (base c) (pending c ++ ws)).
Proof.
  induction ws as [|[q v] ws IH]; intros c H; simpl in *.
  - by rewrite app_nil_r; destruct c.
  - apply andb_true_iff in H as [Hq Hws].
    unfold setitem, has_path in *; simpl.
    destruct (cells (base c) !! q); [|done].
    rewrite IH; simpl; [|done]. by rewrite <- app_assoc.
Qed.

Lemma value_at_commit s ws p :
  value_at p (commit (mkCtx s ws))
  = match last_write ws p with
    | Some v => if has_path s p then Some v else None
    | None => value_at p s
    end.
Proof.
  unfold value_at, commit, has_path; simpl.
  rewrite lookup_foldl_set_value.
  destruct (last_write ws p); destruct (cells s !! p); done.
Qed.

Lemma has_path_commit s ws p :
  has_path (commit (mkCtx s ws)) p = has_path s p.
Proof.
  unfold has_path, commit; simpl. rewrite lookup_foldl_set_value.
  destruct (last_write ws p); destruct (cells s !! p); done.
Qed.

Lemma schema_ok_commit s ws :
  schema_ok (commit (mkCtx s ws)) = schema_ok s.
Proof.
  unfold schema_ok. induction update_paths as [|q l IH]; simpl; [done|].
  by rewrite has_path_commit, IH.
Qed.

(** Writing the same batch a second time changes no cell. *)
Lemma commit_twice s ws :
  cells (commit (mkCtx (commit (mkCtx s ws)) ws))
  = cells (commit (mkCtx s ws)).
Proof.
  apply map_eq. intros p. unfold commit; simpl.
  rewrite !lookup_foldl_set_value.
  destruct (last_write ws p); [|done].
  destruct (cells s !! p); simpl; [|done]. by rewrite with_value_twice.
Qed.

Lemma forallb_take {A} (f : A → bool) (l : list A) (k : nat) :
  forallb f l = true → forallb f (take k l) = true.
Proof.
  revert k. induction l as [|a l IH]; intros [|k] H; simpl in *; try done.
  apply andb_true_iff in H as [-> H]. by apply IH.
Qed.

Lemma setitems_base ws : ∀ (c c' : ServiceContext),
  setitems c ws = Ok c' → base c' = base c.
Proof.
  induction ws as [|x ws IH]; intros c c' H; simpl in H.
  - by injection H as <-.
  - unfold setitem in H. destruct (cells (base c) !! x.1); [|done].
    by apply IH in H.
Qed.

Lemma last_write_In ws p (v : value) :
  last_write ws p = Some v → In p (map fst ws).
Proof.
  induction ws as [|[q v'] ws IH]; simpl; [done|].
  destruct (last_write ws p); [auto|].
  destruct (String.eqb_spec q p); [auto|done].
Qed.

Lemma last_write_NoDup ws p (v : value) :
  NoDup (map fst ws) → In (p, v) ws → last_write ws p = Some v.
Proof.
  induction ws as [|[q v'] ws IH]; simpl; [done|].
  rewrite NoDup_cons, list_elem_of_In. intros [Hq Hnd] [[= -> ->]|Hin].
  - destruct (last_write ws p) eqn:E.
    + apply last_write_In in E. contradiction.
    + by rewrite String.eqb_refl.
  - by rewrite (IH Hnd Hin).
Qed.

Lemma read_cells s s' p : cells s = cells s' → read p s = read p s'.
Proof. unfold read. by intros ->. Qed.

Lemma value_at_cells s s' p :
  cells s = cells s' → value_at p s = value_at p s'.
Proof. unfold value_at. by intros ->. Qed.

End RegistryFacts.

(** ** Acquisition *)

Section Acquisition.

Variable c : AuroraSerialClient.
Variable w : world.

Ltac unfold_stmt :=
  unfold after_acquire, _getInverterData, try_finally,
    try_except_AuroraError, connect, time_date, measure, cumulated_energy,
    close, logging_error, of_reply, bind, modify, ret, raise.

Ltac by_replies :=
  unfold_stmt;
  destruct (close_reply c) as [[]|?];
  (destruct (connect_reply c) as [[]|?];
   [ destruct (time_date_reply c) as [t|?];
     [ destruct (negb (t =? -1));
       [ destruct (measure_reply c 1);
         [ destruct (measure_reply c 2);
           [ destruct (measure_reply c 3);
             [ destruct (cumulated_energy_reply c 5) | ] | ] | ] | ] | ] | ]);
  simpl.

Ltac by_close :=
  destruct (close_reply c) as [[]|?]; simpl; rewrite <- ?app_assoc.

(** Acquisition returns True whatever the inverter answers to connect and
    to the requests; an error raised by the [close] of the finally clause
    is the one thing that leaves it. *)
Lemma getInverterData_outcome :
  _getInverterData c w
  = (match close_reply c with
     | Reply _ => Ok true
     | Fail msg => Raise (AuroraError msg)
     end, after_acquire c w).
Proof. by_replies; reflexivity. Qed.

Lemma getInverterData_returns :
  close_reply c = Reply tt →
  _getInverterData c w = (Ok true, after_acquire c w).
Proof. intros H. by rewrite getInverterData_outcome, H. Qed.

(** It leaves the registry alone. *)
Lemma after_acquire_dbusservice :
  _dbusservice (after_acquire c w) = _dbusservice w.
Proof. by_replies; reflexivity. Qed.

(** The transport is closed last on every way out. *)
Lemma after_acquire_wire :
  ∃ pre, wire (after_acquire c w) = wire w ++ pre ++ [EvClose].
Proof.
  by_replies; rewrite <- ?app_assoc; simpl;
    first [ by eexists [_] | by eexists [_; _] | by eexists [_; _; _]
          | by eexists [_; _; _; _] | by eexists [_; _; _; _; _]
          | by eexists [_; _; _; _; _; _] ].
Qed.

(** No request answered: nothing is assigned. *)
Lemma acquire_connect_failed msg :
  connect_reply c = Fail msg →
  fields (after_acquire c w) = fields w
  ∧ wire (after_acquire c w) = wire w ++ [EvConnect; EvClose]
  ∧ errlog (after_acquire c w) = errlog w ++ [msg].
Proof. intros H. unfold_stmt. rewrite H. by by_close. Qed.

Lemma acquire_offline :
  connect_reply c = Reply tt → time_date_reply c = Reply (-1) →
  fields (after_acquire c w) = fields w
  ∧ wire (after_acquire c w)
    = wire w ++ [EvConnect; EvTimeDate; EvClose; EvClose].
Proof. intros H1 H2. unfold_stmt. rewrite H1, H2. by by_close. Qed.

Section Online.

Variable t : Z.
Hypothesis Hconnect : connect_reply c = Reply tt.
Hypothesis Htime : time_date_reply c = Reply t.
Hypothesis Honline : t ≠ -1.

Ltac online :=
  unfold_stmt; rewrite Hconnect, Htime;
  destruct (Z.eqb_spec t (-1)) as [?|_]; [done|]; simpl.

(** A request that fails ends the session: the attributes of the requests
    answered before it are assigned, the message is logged, and what goes
    to the transport after the failing request is the close alone. *)
Lemma acquire_voltage_failed msg :
  measure_reply c 1 = Fail msg →
  fields (after_acquire c w) = fields w
  ∧ wire (after_acquire c w)
    = wire w ++ [EvConnect; EvTimeDate; EvMeasure 1; EvClose]
  ∧ errlog (after_acquire c w) = errlog w ++ [msg].
Proof. intros H1. online. rewrite H1. by by_close. Qed.

Lemma acquire_current_failed v msg :
  measure_reply c 1 = Reply v → measure_reply c 2 = Fail msg →
  fields (after_acquire c w)
  = (v, grid_current w, grid_power w, cum_energy_total w)
  ∧ wire (after_acquire c w)
    = wire w ++ [EvConnect; EvTimeDate; EvMeasure 1; EvMeasure 2; EvClose]
  ∧ errlog (after_acquire c w) = errlog w ++ [msg].
Proof. intros H1 H2. online. rewrite H1, H2. by by_close. Qed.

Lemma acquire_power_failed v i msg :
  measure_reply c 1 = Reply v → measure_reply c 2 = Reply i →
  measure_reply c 3 = Fail msg →
  fields (after_acquire c w) = (v, i, grid_power w, cum_energy_total w)
  ∧ wire (after_acquire c w)
    = wire w ++ [EvConnect; EvTimeDate; EvMeasure 1; EvMeasure 2;
                 EvMeasure 3; EvClose]
  ∧ errlog (after_acquire c w) = errlog w ++ [msg].
Proof. intros H1 H2 H3. online. rewrite H1, H2, H3. by by_close. Qed.

Lemma acquire_energy_failed v i p msg :
  measure_reply c 1 = Reply v → measure_reply c 2 = Reply i →
  measure_reply c 3 = Reply p → cumulated_energy_reply c 5 = Fail msg →
  fields (after_acquire c w) = (v, i, p, cum_energy_total w)
  ∧ wire (after_acquire c w)
    = wire w ++ [EvConnect; EvTimeDate; EvMeasure 1; EvMeasure 2;
                 EvMeasure 3; EvCumulatedEnergy 5; EvClose]
  ∧ errlog (after_acquire c w) = errlog w ++ [msg].
Proof. intros H1 H2 H3 H4. online. rewrite H1, H2, H3, H4. by by_close. Qed.

Lemma acquire_measured v i p :
  measure_reply c 1 = Reply v → measure_reply c 2 = Reply i →
  measure_reply c 3 = Reply p →
  grid_voltage (after_acquire c w) = v
  ∧ grid_current (after_acquire c w) = i
  ∧ grid_power (after_acquire c w) = p.
Proof.
  intros H1 H2 H3. online. rewrite H1, H2, H3. simpl.
  destruct (cumulated_energy_reply c 5); by by_close.
Qed.

Lemma acquire_all v i p e :
  measure_reply c 1 = Reply v → measure_reply c 2 = Reply i →
  measure_reply c 3 = Reply p → cumulated_energy_reply c 5 = Reply e →
  fields (after_acquire c w) = (v, i, p, e)
  ∧ wire (after_acquire c w)
    = wire w ++ [EvConnect; EvTimeDate; EvMeasure 1; EvMeasure 2;
                 EvMeasure 3; EvCumulatedEnergy 5; EvClose]
  ∧ errlog (after_acquire c w) = errlog w.
Proof. intros H1 H2 H3 H4. online. rewrite H1, H2, H3, H4. by by_close. Qed.

End Online.

(** The same inverter behaviour met a second time assigns nothing new. *)
Lemma acquire_again (w' : world) :
  fields w' = fields (after_acquire c w) →
  fields (after_acquire c w') = fields w'.
Proof.
  unfold fields. unfold_stmt.
  destruct (close_reply c) as [[]|?];
    (destruct (connect_reply c) as [[]|?]; [|done];
     destruct (time_date_reply c) as [t|?]; [|done];
     destruct (negb (t =? -1)); [|done];
     destruct (measure_reply c 1); [|done];
     destruct (measure_reply c 2); [|by intros [= -> _ _ _]];
     destruct (measure_reply c 3); [|by intros [= -> -> _ _]];
     destruct (cumulated_energy_reply c 5); [|by intros [= -> -> -> _]];
     by intros [= -> -> -> ->]).
Qed.

End Acquisition.

(** ** Publication *)

Section Publication.

Implicit Types (w : world) (c : AuroraSerialClient) (p : string).

Lemma derived_paths w : map fst (derived w) = update_paths.
Proof. reflexivity. Qed.

Lemma derived_fields w w' : fields w = fields w' → derived w = derived w'.
Proof.
  unfold fields, derived. intros [= H1 H2 H3 H4].
  by rewrite H1, H2, H3, H4.
Qed.

Lemma fields_published w : fields (published w) = fields w.
Proof. reflexivity. Qed.

Lemma dbusservice_published w :
  _dbusservice (published w)
  = commit (mkCtx (_dbusservice w) (derived w)).
Proof. reflexivity. Qed.

Lemma dbusservice_with_reading (r : Reading) w :
  _dbusservice (with_reading r w) = _dbusservice w.
Proof. reflexivity. Qed.

Lemma derived_with_reading (r : Reading) w w' :
  derived (with_reading r w) = derived (with_reading r w').
Proof. reflexivity. Qed.

Lemma with_dbusservice_ok w :
  schema_ok (_dbusservice w) = true →
  with_dbusservice derived w = (Ok tt, published w).
Proof.
  intros H. unfold with_dbusservice, published.
  rewrite setitems_registered; [done|].
  by rewrite derived_paths.
Qed.

(** A cycle on a registry that knows its paths, when the closing
    [close] does not raise: acquisition, then the whole batch, and True. *)
Lemma update_ok c w :
  schema_ok (_dbusservice w) = true →
  close_reply c = Reply tt →
  _update c w = (Ok true, published (after_acquire c w)).
Proof.
  intros H Hc. unfold _update, bind. rewrite getInverterData_returns by done.
  rewrite with_dbusservice_ok; [done|].
  by rewrite after_acquire_dbusservice.
Qed.

(** When it does raise, the error leaves [_update] before the [with]
    block is reached. *)
Lemma update_close_failed c w msg :
  close_reply c = Fail msg →
  _update c w = (Raise (AuroraError msg), after_acquire c w).
Proof.
  intros Hc. unfold _update, bind. by rewrite getInverterData_outcome, Hc.
Qed.

Lemma after_update_ok c w :
  schema_ok (_dbusservice w) = true →
  close_reply c = Reply tt →
  after_update c w = published (after_acquire c w).
Proof. intros H Hc. unfold after_update. by rewrite update_ok. Qed.

Lemma after_update_cases c w :
  schema_ok (_dbusservice w) = true →
  after_update c w = published (after_acquire c w)
  ∨ after_update c w = after_acquire c w.
Proof.
  intros H. destruct (close_reply c) as [[]|msg] eqn:E.
  - left. by apply after_update_ok.
  - right. unfold after_update. by rewrite (update_close_failed c w msg).
Qed.

(** The batch touches neither the attributes nor the transport. *)
Lemma update_fields c w :
  schema_ok (_dbusservice w) = true →
  fields (after_update c w) = fields (after_acquire c w).
Proof. intros H. by destruct (after_update_cases c w H) as [-> | ->]. Qed.

Lemma wire_after_update c w :
  schema_ok (_dbusservice w) = true →
  wire (after_update c w) = wire (after_acquire c w).
Proof. intros H. by destruct (after_update_cases c w H) as [-> | ->]. Qed.

Lemma schema_ok_published w :
  schema_ok (_dbusservice (published w)) = schema_ok (_dbusservice w).
Proof. apply schema_ok_commit. Qed.

Lemma schema_ok_after_update c w :
  schema_ok (_dbusservice w) = true →
  schema_ok (_dbusservice (after_update c w)) = true.
Proof.
  intros H. destruct (after_update_cases c w H) as [-> | ->].
  - by rewrite schema_ok_published, after_acquire_dbusservice.
  - by rewrite after_acquire_dbusservice.
Qed.

Lemma schema_ok_has_path (s : VeDbusService) p :
  schema_ok s = true → In p update_paths → has_path s p = true.
Proof.
  unfold schema_ok. rewrite forallb_forall. auto.
Qed.

(** What a path holds after the batch: the last value assigned to it. *)
Lemma value_at_published w p v :
  schema_ok (_dbusservice w) = true →
  last_write (derived w) p = Some v →
  value_at p (_dbusservice (published w)) = Some v.
Proof.
  intros Hs Hl. unfold published; simpl.
  rewrite value_at_commit, Hl, schema_ok_has_path; try done.
  rewrite <- (derived_paths w). by eapply last_write_In.
Qed.

Lemma value_at_after_update c w p v :
  schema_ok (_dbusservice w) = true →
  close_reply c = Reply tt →
  last_write (derived (after_acquire c w)) p = Some v →
  value_at p (_dbusservice (after_update c w)) = Some v.
Proof.
  intros Hs Hc Hl. rewrite after_update_ok; [|done|done].
  apply value_at_published; [|done].
  by rewrite after_acquire_dbusservice.
Qed.

(** A path outside the batch keeps its value. *)
Lemma value_at_published_frame w p :
  ¬ In p update_paths →
  value_at p (_dbusservice (published w)) = value_at p (_dbusservice w).
Proof.
  intros Hp. unfold published; simpl. rewrite value_at_commit.
  destruct (last_write (derived w) p) eqn:E; [|done].
  apply last_write_In in E. by rewrite derived_paths in E.
Qed.

End Publication.

(** ** Start-up *)

Lemma main_schema env :
  match main env with
  | Ok tw => schema_ok (_dbusservice tw.2)
  | Raise _ => false
  end = true.
Proof. vm_compute. reflexivity. Qed.

Lemma init_shape env sn di paths pn conn pid t w :
  __init__ env sn di paths pn conn pid = Ok (t, w) →
  t = timeout_add 10000 _update
  ∧ fields w = (Py.PyInt 0, Py.PyInt 0, Py.PyInt 0, Py.PyInt 0)
  ∧ wire w = [] ∧ errlog w = [].
Proof.
  unfold __init__.
  destruct (add_paths _ _ Registry.empty) as [s|e]; [|done].
  destruct (add_paths _ _ s) as [s'|e]; [|done].
  by intros [= <- <-].
Qed.

Lemma main_started env : main env = Ok (started env).
Proof.
  unfold started. pose proof (main_schema env) as H.
  by destruct (main env).
Qed.

Lemma started_schema env :
  schema_ok (_dbusservice (started env).2) = true.
Proof.
  pose proof (main_schema env) as H. rewrite main_started in H. exact H.
Qed.

Lemma started_timer env : (started env).1 = timeout_add 10000 _update.
Proof.
  pose proof (main_started env) as H. destruct (started env) as [t w].
  unfold main in H. apply init_shape in H. destruct H as [H _].
  exact H.
Qed.

(** ** Published values *)

Ltac in_paths H :=
  simpl in H; repeat (destruct H as [<-|H]; [|]); try destruct H.

Section Cycle.

Variable c : AuroraSerialClient.
Variable w : world.
Hypothesis Hschema : schema_ok (_dbusservice w) = true.
Hypothesis Hclose : close_reply c = Reply tt.

Lemma total_paths :
  value_at "/Ac/Power" (_dbusservice (after_update c w))
  = Some (rounded (grid_power (after_acquire c w)))
  ∧ value_at "/Ac/Current" (_dbusservice (after_update c w))
    = Some (rounded (grid_current (after_acquire c w))).
Proof. split; by apply value_at_after_update. Qed.

Lemma voltage_path p :
  In p voltage_paths →
  value_at p (_dbusservice (after_update c w))
  = Some (rounded (grid_voltage (after_acquire c w))).
Proof. intros H. in_paths H; by apply value_at_after_update. Qed.

Lemma current_path p :
  In p current_paths →
  value_at p (_dbusservice (after_update c w))
  = Some (rounded (over (grid_current (after_acquire c w)) Py.f3_0)).
Proof. intros H. in_paths H; by apply value_at_after_update. Qed.

Lemma power_path p :
  In p power_paths →
  value_at p (_dbusservice (after_update c w))
  = Some (rounded (over (grid_power (after_acquire c w)) Py.f3_0)).
Proof. intros H. in_paths H; by apply value_at_after_update. Qed.

Lemma energy_total_path :
  value_at "/Ac/Energy/Forward" (_dbusservice (after_update c w))
  = Some (rounded (over (cum_energy_total (after_acquire c w))
                        Py.f1000_0)).
Proof. by apply value_at_after_update. Qed.

Lemma energy_path p :
  In p energy_paths →
  value_at p (_dbusservice (after_update c w))
  = Some (rounded (over (cum_energy_total (after_acquire c w))
                        Py.f3000_0)).
Proof. intros H. in_paths H; by apply value_at_after_update. Qed.

Lemma constant_paths :
  value_at "/Ac/MaxPower" (_dbusservice (after_update c w))
  = Some (VInt 10000)
  ∧ value_at "/StatusCode" (_dbusservice (after_update c w))
    = Some (VInt 7).
Proof. split; by apply value_at_after_update. Qed.

(** The cycle sends one notification: the whole batch. *)
Lemma update_signal :
  signals (_dbusservice (after_update c w))
  = signals (_dbusservice w) ++ [derived (after_acquire c w)].
Proof.
  rewrite after_update_ok; [|done|done]. rewrite dbusservice_published.
  unfold commit. cbn [base pending signals].
  by rewrite after_acquire_dbusservice.
Qed.

End Cycle.

(** ** The scenario of the specification, evaluated *)

Lemma scenario_rounded :
  rounded (Py.PyFloat (Py.lit 3450 0)) = VFloat (Py.lit 3450 0)
  ∧ rounded (Py.PyFloat (Py.lit 15 0)) = VFloat (Py.lit 15 0)
  ∧ rounded (Py.PyFloat (Py.lit 230 0)) = VFloat (Py.lit 230 0)
  ∧ rounded (over (Py.PyFloat (Py.lit 15 0)) Py.f3_0) = VFloat (Py.lit 5 0)
  ∧ rounded (over (Py.PyFloat (Py.lit 3450 0)) Py.f3_0)
    = VFloat (Py.lit 1150 0).
Proof. vm_compute. repeat split; reflexivity. Qed.

(** 230.456 V, 15.254 A and 3450.128 W are published as 230.46, 15.25 and
    3450.13, and their thirds 5.0846... and 1150.0426... as 5.08 and
    1150.04. *)
Lemma unrounded_rounded :
  of_num (Py.round (Py.PyFloat (Py.lit 3450128 (-3))) 2)
  = VFloat (Py.lit 345013 (-2))
  ∧ of_num (Py.round (Py.PyFloat (Py.lit 15254 (-3))) 2)
    = VFloat (Py.lit 1525 (-2))
  ∧ of_num (Py.round (Py.PyFloat (Py.lit 230456 (-3))) 2)
    = VFloat (Py.lit 23046 (-2))
  ∧ of_num (Py.round (Py.PyFloat
                        (Py.truediv (Py.PyFloat (Py.lit 15254 (-3)))
                                    Py.f3_0)) 2)
    = VFloat (Py.lit 508 (-2))
  ∧ of_num (Py.round (Py.PyFloat
                        (Py.truediv (Py.PyFloat (Py.lit 3450128 (-3)))
                                    Py.f3_0)) 2)
    = VFloat (Py.lit 115004 (-2)).
Proof. vm_compute. repeat split; reflexivity. Qed.

Lemma scenario_energy :
  rounded (over (Py.PyFloat (Py.lit 120500 0)) Py.f1000_0)
  = VFloat (Py.lit 1205 (-1))
  ∧ rounded (over (Py.PyFloat (Py.lit 120500 0)) Py.f3000_0)
    = VFloat (Py.lit 4017 (-2)).
Proof. vm_compute. repeat split; reflexivity. Qed.

(** 40.17 is the double 0x404415C28F5C28F6, and prints as such. *)
Lemma forty_point_seventeen :
  Py.lit 4017 (-2) = S754_finite false 5653424907233526 (-47)
  ∧ Py.str_float (Py.lit 4017 (-2)) = "40.17"%string.
Proof. vm_compute. split; reflexivity. Qed.

(** ** Batches *)

Lemma update_paths_NoDup : NoDup update_paths.
Proof. apply (bool_decide_unpack _). by vm_compute. Qed.

Lemma started_signals env : signals (_dbusservice (started env).2) = [].
Proof. vm_compute. reflexivity. Qed.

Lemma value_at_batch (c : AuroraSerialClient) (w : world) p v :
  schema_ok (_dbusservice w) = true →
  close_reply c = Reply tt →
  In (p, v) (derived (after_acquire c w)) →
  value_at p (_dbusservice (after_update c w)) = Some v.
Proof.
  intros Hs Hc Hin. apply value_at_after_update; [done|done|].
  apply last_write_NoDup; [|done].
  rewrite derived_paths. apply update_paths_NoDup.
Qed.

Lemma fields_inv (x y : world) :
  fields x = fields y →
  grid_voltage x = grid_voltage y ∧ grid_current x = grid_current y
  ∧ grid_power x = grid_power y ∧ cum_energy_total x = cum_energy_total y.
Proof. by intros [= -> -> -> ->]. Qed.

(** ** The timer *)

Lemma requestWrite_schema (p : string) (v : value) (s s' : VeDbusService) :
  requestWrite p v s = Ok s' → schema_ok s' = schema_ok s.
Proof.
  unfold requestWrite. destruct (cells s !! p) as [cl|]; [|done].
  destruct (negb (cell_writable cl)); [done|].
  destruct (cell_onChange cl p v); intros [= <-]; [|done].
  unfold schema_ok. induction update_paths as [|q l IH]; simpl; [done|].
  rewrite IH. f_equal. destruct s. apply has_path_set_value.
Qed.

Lemma closes_reply (c : AuroraSerialClient) :
  closes c = true → close_reply c = Reply tt.
Proof. unfold closes. by destruct (close_reply c) as [[]|?]. Qed.

Lemma healthy_tick (c : AuroraSerialClient) (tw : timeout * world) :
  healthy tw →
  close_reply c = Reply tt →
  healthy (tick c tw)
  ∧ dispatched (tick c tw).1 = S (dispatched tw.1)
  ∧ (callback tw.1 c tw.2).1 = Ok true.
Proof.
  destruct tw as [t w]. intros (Hcb & Hi & Ha & Hst & Hu & Hs) Hc.
  cbn [fst snd] in *.
  unfold healthy, tick, finish, fire. cbn [fst snd alive callback].
  rewrite Ha, Hcb. rewrite (update_ok c w Hs Hc).
  cbn [fst snd alive callback interval_ms state uncaught dispatched].
  rewrite schema_ok_published, after_acquire_dbusservice.
  by repeat split.
Qed.

(** A tick whose [close] raises: the error leaves the callback and the
    source is destroyed. *)
Lemma tick_close_failed (c : AuroraSerialClient) (tw : timeout * world)
    (msg : string) :
  healthy tw →
  close_reply c = Fail msg →
  (callback tw.1 c tw.2).1 = Raise (AuroraError msg)
  ∧ alive (tick c tw).1 = false
  ∧ state (tick c tw).1 = Idle
  ∧ uncaught (tick c tw).1 = [AuroraError msg]
  ∧ dispatched (tick c tw).1 = S (dispatched tw.1).
Proof.
  destruct tw as [t w]. intros (Hcb & Hi & Ha & Hst & Hu & Hs) Hc.
  cbn [fst snd] in *.
  unfold tick, finish, fire. cbn [fst snd alive callback].
  rewrite Ha, Hcb. rewrite (update_close_failed c w msg Hc).
  cbn [fst snd alive callback interval_ms state uncaught dispatched].
  by rewrite Hu.
Qed.

(** Once the source is destroyed no tick is dispatched any more. *)
Lemma dead_foldl (acts : list activity) : ∀ tw,
  alive tw.1 = false →
  (foldl perform tw acts).1 = tw.1
  ∧ wire (foldl perform tw acts).2 = wire tw.2.
Proof.
  induction acts as [|a acts IH]; intros tw Ha; [done|].
  cbn [foldl]. destruct a as [c|p v]; cbn [perform].
  - unfold tick. rewrite Ha. by apply IH.
  - destruct (requestWrite p v (_dbusservice tw.2)) as [s|e]; [|by apply IH].
    destruct (IH (tw.1, set_dbusservice s tw.2) Ha) as [H1 H2].
    by rewrite H1, H2.
Qed.

Lemma healthy_perform (a : activity) (tw : timeout * world) :
  healthy tw →
  ticks_close [a] = true →
  healthy (perform tw a)
  ∧ dispatched (perform tw a).1 = (count_ticks [a] + dispatched tw.1)%nat.
Proof.
  intros H Hc. destruct a as [c|p v]; simpl.
  - cbn [ticks_close] in Hc. apply andb_true_iff in Hc as [Hc _].
    apply closes_reply in Hc.
    by destruct (healthy_tick c tw H Hc) as (? & ? & _).
  - destruct (requestWrite p v (_dbusservice tw.2)) as [s|e] eqn:E; [|done].
    split; [|done]. destruct H as (? & ? & ? & ? & ? & Hs).
    repeat split; try done. simpl.
    by rewrite (requestWrite_schema _ _ _ _ E).
Qed.

Lemma ticks_close_cons (a : activity) (acts : list activity) :
  ticks_close (a :: acts) = ticks_close [a] && ticks_close acts.
Proof. destruct a; cbn [ticks_close]; by rewrite ?andb_true_r. Qed.

Lemma healthy_foldl (acts : list activity) : ∀ tw,
  healthy tw →
  ticks_close acts = true →
  healthy (foldl perform tw acts)
  ∧ dispatched (foldl perform tw acts).1
    = (count_ticks acts + dispatched tw.1)%nat.
Proof.
  induction acts as [|a acts IH]; intros tw H Hc; [done|].
  rewrite ticks_close_cons in Hc. apply andb_true_iff in Hc as [Ha Hc].
  cbn [foldl].
  destruct (healthy_perform a tw H Ha) as [H' Hd].
  destruct (IH _ H' Hc) as [H'' Hd'].
  split; [done|]. rewrite Hd', Hd. destruct a; simpl; lia.
Qed.

Lemma healthy_started env : healthy (started env).
Proof.
  unfold healthy. rewrite started_timer, started_schema. by simpl.
Qed.

Lemma started_dispatched env : dispatched (started env).1 = O.
Proof. by rewrite started_timer. Qed.

(** ** External writes *)

Lemma accepting_foldl_set_value (m : gmap string PathCell)
    (ws : list (string * value)) (sg sg' : list notification) (p : string) :
  accepting (mkBus m sg) p →
  accepting (mkBus (foldl set_value m ws) sg') p.
Proof.
  intros (cl & Hl & Hw & Hh). unfold accepting; simpl in *.
  rewrite lookup_foldl_set_value, Hl.
  destruct (last_write ws p); simpl; eauto.
Qed.

Lemma accepting_requestWrite (q p : string) (v : value)
    (s s' : VeDbusService) :
  requestWrite q v s = Ok s' → accepting s p → accepting s' p.
Proof.
  unfold requestWrite. destruct (cells s !! q) as [cl|]; [|done].
  destruct (negb (cell_writable cl)); [done|].
  destruct (cell_onChange cl q v); intros [= <-]; [|done].
  intros H. destruct s as [m sg].
  by apply (accepting_foldl_set_value m [(q, v)] sg).
Qed.

Lemma accepting_update (c : AuroraSerialClient) (w : world) (p : string) :
  accepting (_dbusservice w) p →
  accepting (_dbusservice (_update c w).2) p.
Proof.
  intros H. unfold _update, bind. rewrite getInverterData_outcome.
  destruct (close_reply c); cbn [snd];
    [|by rewrite after_acquire_dbusservice].
  unfold with_dbusservice.
  destruct (setitems _ _) as [ctx|e] eqn:E; simpl.
  - apply setitems_base in E. simpl in E. unfold commit. rewrite E.
    rewrite after_acquire_dbusservice.
    destruct (_dbusservice w) as [m sg].
    by apply (accepting_foldl_set_value m _ sg).
  - by rewrite after_acquire_dbusservice.
Qed.

Lemma accepting_perform (a : activity) (tw : timeout * world) (p : string) :
  callback tw.1 = _update → accepting (_dbusservice tw.2) p →
  callback (perform tw a).1 = _update
  ∧ accepting (_dbusservice (perform tw a).2) p.
Proof.
  destruct tw as [t w]. simpl. intros Hcb H. destruct a as [c|q v]; simpl.
  - unfold tick; simpl. destruct (alive t); [|done].
    unfold finish, fire; simpl. rewrite Hcb.
    pose proof (accepting_update c w p H) as H'.
    by destruct (_update c w) as [[b|e] w'].
  - destruct (requestWrite q v (_dbusservice w)) as [s|e] eqn:E; [|done].
    simpl. split; [done|]. by eapply accepting_requestWrite.
Qed.

Lemma accepting_foldl (acts : list activity) : ∀ tw (p : string),
  callback tw.1 = _update → accepting (_dbusservice tw.2) p →
  accepting (_dbusservice (foldl perform tw acts).2) p.
Proof.
  induction acts as [|a acts IH]; intros tw p Hcb H; simpl; [done|].
  destruct (accepting_perform a tw p Hcb H). by apply IH.
Qed.

Lemma add_paths_accepting (paths : list (string * settings)) :
  ∀ (s s' : VeDbusService),
  add_paths (λ p, add_path p.1 (initial p.2) (Some (textformat p.2)) true
                           (Some _handlechangedvalue)) paths s = Ok s' →
  ∀ p, (In p (map fst paths) ∨ accepting s p) → accepting s' p.
Proof.
  induction paths as [|[q st] paths IH]; intros s s' H p Hp; simpl in *.
  - injection H as <-. by destruct Hp.
  - unfold add_path in H at 1. simpl in H.
    destruct (cells s !! q) eqn:Eq; [done|].
    apply (IH _ _ H). destruct Hp as [[->|Hp]|Hp]; [right|by left|right].
    + eexists. simpl. by rewrite lookup_insert_eq.
    + destruct Hp as (cl & Hl & Hw & Hh). exists cl. simpl.
      rewrite lookup_insert_ne; [done|]. congruence.
Qed.

Lemma init_accepting env sn di paths pn conn pid tw (p : string) :
  __init__ env sn di paths pn conn pid = Ok tw →
  In p (map fst paths) →
  callback tw.1 = _update ∧ accepting (_dbusservice tw.2) p.
Proof.
  unfold __init__.
  destruct (add_paths _ _ Registry.empty) as [s|e]; [|done].
  destruct (add_paths _ paths s) as [s'|e] eqn:E; [|done].
  intros [= <-] Hp. simpl. split; [done|].
  eapply add_paths_accepting; eauto.
Qed.

(** * The claims *)

(** C1: after a cycle in which voltage V, current I and power P are
    measured ([volts], [amps], [watts]) and which runs to its end, every
    phase voltage path holds round(V, 2), every phase current path
    round(I/3.0, 2), every phase power path round(P/3.0, 2), /Ac/Power
    holds round(P, 2) and /Ac/Current round(I, 2), with Python's [round]
    and true division on binary64; for V=230.0, I=15.0, P=3450.0 these are
    230.0, 5.0, 1150.0, 3450.0 and 15.0, and for V=230.456, I=15.254,
    P=3450.128 they are 230.46, 5.08, 1150.04, 3450.13 and 15.25. *)
Theorem phase_split_published (c : AuroraSerialClient) (w : world) (t : Z)
    (volts amps watts : Py.num) :
  schema_ok (_dbusservice w) = true →
  connect_reply c = Reply tt →
  time_date_reply c = Reply t →
  t ≠ -1 →
  measure_reply c 1 = Reply volts →
  measure_reply c 2 = Reply amps →
  measure_reply c 3 = Reply watts →
  close_reply c = Reply tt →
  let s := _dbusservice (after_update c w) in
  (∀ p, In p voltage_paths →
        value_at p s = Some (of_num (Py.round volts 2)))
  ∧ (∀ p, In p current_paths →
          value_at p s
          = Some (of_num (Py.round
                            (Py.PyFloat (Py.truediv amps Py.f3_0)) 2)))
  ∧ (∀ p, In p power_paths →
          value_at p s
          = Some (of_num (Py.round
                            (Py.PyFloat (Py.truediv watts Py.f3_0)) 2)))
  ∧ value_at "/Ac/Power" s = Some (of_num (Py.round watts 2))
  ∧ value_at "/Ac/Current" s = Some (of_num (Py.round amps 2))
  ∧ (volts = Py.PyFloat (Py.lit 230 0) → amps = Py.PyFloat (Py.lit 15 0) →
     watts = Py.PyFloat (Py.lit 3450 0) →
     value_at "/Ac/Power" s = Some (VFloat (Py.lit 3450 0))
     ∧ value_at "/Ac/Current" s = Some (VFloat (Py.lit 15 0))
     ∧ value_at "/Ac/L1/Voltage" s = Some (VFloat (Py.lit 230 0))
     ∧ value_at "/Ac/L1/Current" s = Some (VFloat (Py.lit 5 0))
     ∧ value_at "/Ac/L1/Power" s = Some (VFloat (Py.lit 1150 0)))
  ∧ (volts = Py.PyFloat (Py.lit 230456 (-3)) →
     amps = Py.PyFloat (Py.lit 15254 (-3)) →
     watts = Py.PyFloat (Py.lit 3450128 (-3)) →
     value_at "/Ac/Power" s = Some (VFloat (Py.lit 345013 (-2)))
     ∧ value_at "/Ac/Current" s = Some (VFloat (Py.lit 1525 (-2)))
     ∧ (∀ p, In p voltage_paths →
             value_at p s = Some (VFloat (Py.lit 23046 (-2))))
     ∧ (∀ p, In p current_paths →
             value_at p s = Some (VFloat (Py.lit 508 (-2))))
     ∧ (∀ p, In p power_paths →
             value_at p s = Some (VFloat (Py.lit 115004 (-2))))).
Proof.
  intros Hs Hc Ht Hn H1 H2 H3 Hcl s.
  destruct (acquire_measured c w t Hc Ht Hn volts amps watts H1 H2 H3)
    as (Hv & Hi & Hp).
  pose proof (voltage_path c w Hs Hcl) as Lv.
  pose proof (current_path c w Hs Hcl) as Li.
  pose proof (power_path c w Hs Hcl) as Lp.
  destruct (total_paths c w Hs Hcl) as [Tp Ti].
  rewrite Hv in Lv. rewrite Hi in Li, Ti. rewrite Hp in Lp, Tp.
  unfold rounded, over in Lv, Li, Lp, Tp, Ti.
  repeat (split; [assumption|]).
  split.
  - intros -> -> ->.
    destruct scenario_rounded as (E1 & E2 & E3 & E4 & E5).
    unfold rounded, over in E1, E2, E3, E4, E5.
    rewrite <- E1, <- E2, <- E3, <- E4, <- E5.
    repeat split; try assumption.
    + apply Lv. by left.
    + apply Li. by left.
    + apply Lp. by left.
  - intros -> -> ->.
    destruct unrounded_rounded as (E1 & E2 & E3 & E4 & E5).
    rewrite <- E1, <- E2, <- E3, <- E4, <- E5.
    repeat split; assumption.
Qed.

Lemma phase_split_published_witness :
  let s := _dbusservice (after_update scenario (started example_env).2) in
  let s' := _dbusservice (after_update unrounded (started example_env).2) in
  (value_at "/Ac/Power" s = Some (VFloat (Py.lit 3450 0))
   ∧ value_at "/Ac/Current" s = Some (VFloat (Py.lit 15 0))
   ∧ value_at "/Ac/L1/Voltage" s = Some (VFloat (Py.lit 230 0))
   ∧ value_at "/Ac/L1/Current" s = Some (VFloat (Py.lit 5 0))
   ∧ value_at "/Ac/L1/Power" s = Some (VFloat (Py.lit 1150 0)))
  ∧ (value_at "/Ac/Power" s' = Some (VFloat (Py.lit 345013 (-2)))
     ∧ value_at "/Ac/Current" s' = Some (VFloat (Py.lit 1525 (-2)))
     ∧ value_at "/Ac/L1/Voltage" s' = Some (VFloat (Py.lit 23046 (-2)))
     ∧ value_at "/Ac/L1/Current" s' = Some (VFloat (Py.lit 508 (-2)))
     ∧ value_at "/Ac/L1/Power" s' = Some (VFloat (Py.lit 115004 (-2)))).
Proof.
  assert (770000000 ≠ -1) as Hn by discriminate.
  assert (770000020 ≠ -1) as Hn' by discriminate.
  destruct (phase_split_published scenario (started example_env).2
              770000000 _ _ _ (started_schema example_env)
              eq_refl eq_refl Hn eq_refl eq_refl eq_refl eq_refl)
    as (_ & _ & _ & _ & _ & H & _).
  destruct (phase_split_published unrounded (started example_env).2
              770000020 _ _ _ (started_schema example_env)
              eq_refl eq_refl Hn' eq_refl eq_refl eq_refl eq_refl)
    as (_ & _ & _ & _ & _ & _ & H').
  destruct (H' eq_refl eq_refl eq_refl) as (Hp & Hi & Lv & Li & Lp).
  split; [exact (H eq_refl eq_refl eq_refl)|].
  split; [exact Hp|]. split; [exact Hi|].
  split; [apply Lv; left; reflexivity|].
  split; [apply Li; left; reflexivity | apply Lp; left; reflexivity].
Defined.

(** C2: when the cycle obtains the cumulative energy [E] and runs to its
    end, /Ac/Energy/Forward holds round(E/1000.0, 2) and each of the three
    per-phase forward energies round(E/3000.0, 2); for E=120500.0 these
    are 120.5 and 40.17. *)
Theorem energy_published (c : AuroraSerialClient) (w : world) (t : Z)
    (volts amps watts E : Py.num) :
  schema_ok (_dbusservice w) = true →
  connect_reply c = Reply tt →
  time_date_reply c = Reply t →
  t ≠ -1 →
  measure_reply c 1 = Reply volts →
  measure_reply c 2 = Reply amps →
  measure_reply c 3 = Reply watts →
  cumulated_energy_reply c 5 = Reply E →
  close_reply c = Reply tt →
  let s := _dbusservice (after_update c w) in
  value_at "/Ac/Energy/Forward" s = Some (rounded (over E Py.f1000_0))
  ∧ (∀ p, In p energy_paths →
          value_at p s = Some (rounded (over E Py.f3000_0)))
  ∧ (E = Py.PyFloat (Py.lit 120500 0) →
     value_at "/Ac/Energy/Forward" s = Some (VFloat (Py.lit 1205 (-1)))
     ∧ ∀ p, In p energy_paths →
            value_at p s = Some (VFloat (Py.lit 4017 (-2)))).
Proof.
  intros Hs Hc Ht Hn H1 H2 H3 H4 Hcl s.
  destruct (acquire_all c w t Hc Ht Hn _ _ _ _ H1 H2 H3 H4)
    as ([= _ _ _ He] & _).
  pose proof (energy_total_path c w Hs Hcl) as Lt.
  pose proof (energy_path c w Hs Hcl) as Le.
  rewrite He in Lt, Le.
  repeat (split; [assumption|]).
  intros ->. destruct scenario_energy as [E1 E2].
  rewrite <- E1, <- E2. by split.
Qed.

Lemma energy_published_witness :
  let s := _dbusservice (after_update scenario (started example_env).2) in
  value_at "/Ac/Energy/Forward" s = Some (VFloat (Py.lit 1205 (-1)))
  ∧ value_at "/Ac/L1/Energy/Forward" s = Some (VFloat (Py.lit 4017 (-2))).
Proof.
  assert (770000000 ≠ -1) as Hn by discriminate.
  destruct (energy_published scenario (started example_env).2
              770000000 _ _ _ _ (started_schema example_env)
              eq_refl eq_refl Hn eq_refl eq_refl eq_refl eq_refl eq_refl)
    as (_ & _ & H).
  destruct (H eq_refl) as [Ht Hp].
  split; [exact Ht|]. apply Hp. left. reflexivity.
Defined.

(** C3 (as amended): the [with] block of a tick records 17 assignments,
    one per path of [update_paths]; after any number of them the bus is as
    it was before the tick, and leaving the block (which the tick reaches
    when the closing [close] of acquisition does not raise) commits all 17
    and sends one notification that carries them all. *)
Theorem batch_atomic (c : AuroraSerialClient) (w : world) :
  schema_ok (_dbusservice w) = true →
  close_reply c = Reply tt →
  let wa := after_acquire c w in
  let s' := _dbusservice (after_update c w) in
  (∀ k, ∃ ctx,
      setitems (enter (_dbusservice wa)) (take k (derived wa)) = Ok ctx
      ∧ pending ctx = take k (derived wa)
      ∧ observable ctx = _dbusservice w)
  ∧ signals s' = signals (_dbusservice w) ++ [derived wa]
  ∧ map fst (derived wa) = update_paths
  ∧ length update_paths = 17%nat
  ∧ NoDup update_paths
  ∧ (∀ p v, In (p, v) (derived wa) → value_at p s' = Some v).
Proof.
  intros Hs Hcl wa s'. split; [|split; [|split; [|split; [|split]]]].
  - intros k. eexists. split; [|split].
    + apply setitems_registered. simpl.
      rewrite <- firstn_map. apply forallb_take.
      unfold wa. rewrite after_acquire_dbusservice, derived_paths. exact Hs.
    + reflexivity.
    + simpl. apply after_acquire_dbusservice.
  - by apply update_signal.
  - apply derived_paths.
  - reflexivity.
  - apply update_paths_NoDup.
  - intros p v. by apply value_at_batch.
Qed.

Lemma batch_atomic_witness :
  let w := (started example_env).2 in
  signals (_dbusservice (after_update scenario w))
  = signals (_dbusservice w) ++ [derived (after_acquire scenario w)]
  ∧ length update_paths = 17%nat.
Proof.
  destruct (batch_atomic scenario (started example_env).2
              (started_schema example_env) eq_refl) as (_ & H & _ & L & _).
  split; [exact H | exact L].
Defined.

(** C3, the claim as stated fails on the count: the notification of a
    tick carries 17 values, not 16. *)
Lemma batch_has_seventeen_values :
  ∃ b, signals (_dbusservice (after_update scenario (started example_env).2))
       = [b]
       ∧ length b = 17%nat ∧ length b ≠ 16%nat.
Proof.
  exists (derived (after_acquire scenario (started example_env).2)).
  split; [|split].
  - rewrite update_signal by (apply started_schema || reflexivity).
    by rewrite started_signals.
  - reflexivity.
  - discriminate.
Qed.

(** C4 (as amended): when a measurement request fails, the requests
    after it are not issued (what goes to the transport after the failing
    request is the close alone), the attribute of that request and of
    every request after it (in the order voltage, current, power, energy)
    keep their values, and the attributes measured before it are assigned;
    in particular, when the power request fails after voltage and current
    were answered, in cycles that run to their end, /Ac/Power, the phase
    power paths and the four energy paths keep what the preceding cycle
    published, the voltage and current paths take the new values, and
    /Ac/MaxPower = 10000 and /StatusCode = 7 are published. *)
Theorem failed_request_keeps_later_fields (c0 c : AuroraSerialClient)
    (w : world) (t : Z) :
  schema_ok (_dbusservice w) = true →
  connect_reply c = Reply tt →
  time_date_reply c = Reply t →
  t ≠ -1 →
  let w1 := after_update c0 w in
  let w2 := after_update c w1 in
  let s1 := _dbusservice w1 in
  let s2 := _dbusservice w2 in
  (∀ msg, measure_reply c 1 = Fail msg →
          fields w2 = fields w1
          ∧ wire w2
            = wire w1 ++ [EvConnect; EvTimeDate; EvMeasure 1; EvClose])
  ∧ (∀ v msg,
        measure_reply c 1 = Reply v → measure_reply c 2 = Fail msg →
        fields w2
        = (v, grid_current w1, grid_power w1, cum_energy_total w1)
        ∧ wire w2
          = wire w1 ++ [EvConnect; EvTimeDate; EvMeasure 1; EvMeasure 2;
                        EvClose])
  ∧ (∀ v i msg,
        measure_reply c 1 = Reply v → measure_reply c 2 = Reply i →
        measure_reply c 3 = Fail msg →
        fields w2 = (v, i, grid_power w1, cum_energy_total w1)
        ∧ wire w2
          = wire w1 ++ [EvConnect; EvTimeDate; EvMeasure 1; EvMeasure 2;
                        EvMeasure 3; EvClose])
  ∧ (∀ v i p msg,
        measure_reply c 1 = Reply v → measure_reply c 2 = Reply i →
        measure_reply c 3 = Reply p →
        cumulated_energy_reply c 5 = Fail msg →
        fields w2 = (v, i, p, cum_energy_total w1)
        ∧ wire w2
          = wire w1 ++ [EvConnect; EvTimeDate; EvMeasure 1; EvMeasure 2;
                        EvMeasure 3; EvCumulatedEnergy 5; EvClose])
  ∧ (∀ v i msg,
        measure_reply c 1 = Reply v → measure_reply c 2 = Reply i →
        measure_reply c 3 = Fail msg →
        close_reply c0 = Reply tt → close_reply c = Reply tt →
        value_at "/Ac/Power" s2 = value_at "/Ac/Power" s1
        ∧ (∀ p, In p power_paths → value_at p s2 = value_at p s1)
        ∧ value_at "/Ac/Energy/Forward" s2
          = value_at "/Ac/Energy/Forward" s1
        ∧ (∀ p, In p energy_paths → value_at p s2 = value_at p s1)
        ∧ (∀ p, In p voltage_paths → value_at p s2 = Some (rounded v))
        ∧ value_at "/Ac/Current" s2 = Some (rounded i)
        ∧ (∀ p, In p current_paths →
                value_at p s2 = Some (rounded (over i Py.f3_0)))
        ∧ value_at "/Ac/MaxPower" s2 = Some (VInt 10000)
        ∧ value_at "/StatusCode" s2 = Some (VInt 7)).
Proof.
  intros Hs Hc Ht Hn w1 w2 s1 s2.
  assert (schema_ok (_dbusservice w1) = true) as Hs1
    by by apply schema_ok_after_update.
  assert (fields w2 = fields (after_acquire c w1)) as Hw2
    by apply (update_fields c w1 Hs1).
  assert (wire w2 = wire (after_acquire c w1)) as Hwire
    by apply (wire_after_update c w1 Hs1).
  split; [|split; [|split; [|split]]].
  - intros msg H1. rewrite Hw2, Hwire.
    by destruct (acquire_voltage_failed c w1 t Hc Ht Hn msg H1) as (? & ? & _).
  - intros v msg H1 H2. rewrite Hw2, Hwire.
    by destruct (acquire_current_failed c w1 t Hc Ht Hn v msg H1 H2)
      as (? & ? & _).
  - intros v i msg H1 H2 H3. rewrite Hw2, Hwire.
    by destruct (acquire_power_failed c w1 t Hc Ht Hn v i msg H1 H2 H3)
      as (? & ? & _).
  - intros v i p msg H1 H2 H3 H4. rewrite Hw2, Hwire.
    by destruct (acquire_energy_failed c w1 t Hc Ht Hn v i p msg H1 H2 H3 H4)
      as (? & ? & _).
  - intros v i msg H1 H2 H3 Hcl0 Hcl.
    destruct (acquire_power_failed c w1 t Hc Ht Hn v i msg H1 H2 H3)
      as (Ha & _).
    assert (fields w1 = fields (after_acquire c0 w)) as Hw1
      by apply (update_fields c0 w Hs).
    apply fields_inv in Hw1 as (_ & _ & Hp1 & He1).
    injection Ha as Hv Hi Hp He.
    destruct (total_paths c w1 Hs1 Hcl) as [Tp Ti].
    destruct (total_paths c0 w Hs Hcl0) as [Tp0 _].
    destruct (constant_paths c w1 Hs1 Hcl) as [Cm Cs].
    pose proof (power_path c w1 Hs1 Hcl) as Lp.
    pose proof (power_path c0 w Hs Hcl0) as Lp0.
    pose proof (energy_path c w1 Hs1 Hcl) as Le.
    pose proof (energy_path c0 w Hs Hcl0) as Le0.
    pose proof (energy_total_path c w1 Hs1 Hcl) as Et.
    pose proof (energy_total_path c0 w Hs Hcl0) as Et0.
    pose proof (voltage_path c w1 Hs1 Hcl) as Lv.
    pose proof (current_path c w1 Hs1 Hcl) as Li.
    rewrite Hp, Hp1 in Tp, Lp. rewrite He, He1 in Et, Le.
    rewrite Hv in Lv. rewrite Hi in Ti, Li.
    subst s2 s1 w2 w1.
    repeat split; try assumption.
    + by rewrite Tp, Tp0.
    + intros p Hp'. by rewrite Lp, Lp0.
    + by rewrite Et, Et0.
    + intros p Hp'. by rewrite Le, Le0.
Qed.

Lemma failed_request_keeps_later_fields_witness :
  let w1 := after_update scenario (started example_env).2 in
  let w2 := after_update power_fails w1 in
  wire w2
  = wire w1 ++ [EvConnect; EvTimeDate; EvMeasure 1; EvMeasure 2;
                EvMeasure 3; EvClose]
  ∧ value_at "/Ac/Power" (_dbusservice w2)
    = value_at "/Ac/Power" (_dbusservice w1)
  ∧ value_at "/Ac/Energy/Forward" (_dbusservice w2)
    = value_at "/Ac/Energy/Forward" (_dbusservice w1)
  ∧ value_at "/Ac/Current" (_dbusservice w2)
    = Some (rounded (Py.PyFloat (Py.lit 16 0))).
Proof.
  assert (770000010 ≠ -1) as Hn by discriminate.
  destruct (failed_request_keeps_later_fields scenario power_fails
              (started example_env).2 770000010
              (started_schema example_env) eq_refl eq_refl Hn)
    as (_ & _ & Hw & _ & H).
  destruct (Hw _ _ _ eq_refl eq_refl eq_refl) as [_ Hwire].
  destruct (H _ _ _ eq_refl eq_refl eq_refl eq_refl eq_refl)
    as (Hp & _ & He & _ & _ & Hi & _).
  split; [exact Hwire|]. split; [exact Hp|]. split; [exact He | exact Hi].
Defined.

(** C4, the claim as stated fails: the power request fails, the inverter
    would have answered the energy request with 120600.0, but the request
    is never sent and /Ac/Energy/Forward stays at 120.5 instead of moving
    to 120.6. *)
Lemma power_failure_stalls_energy :
  let w1 := after_update scenario (started example_env).2 in
  let w2 := after_update power_fails w1 in
  measure_reply power_fails 3 = Fail "Reading Timeout"
  ∧ cumulated_energy_reply power_fails 5
    = Reply (Py.PyFloat (Py.lit 120600 0))
  ∧ rounded (over (Py.PyFloat (Py.lit 120600 0)) Py.f1000_0)
    = VFloat (Py.lit 1206 (-1))
  ∧ value_at "/Ac/Energy/Forward" (_dbusservice w1)
    = Some (VFloat (Py.lit 1205 (-1)))
  ∧ value_at "/Ac/Energy/Forward" (_dbusservice w2)
    = Some (VFloat (Py.lit 1205 (-1)))
  ∧ value_at "/Ac/Energy/Forward" (_dbusservice w2)
    ≠ Some (VFloat (Py.lit 1206 (-1)))
  ∧ wire w2
    = [ EvConnect; EvTimeDate; EvMeasure 1; EvMeasure 2; EvMeasure 3;
        EvCumulatedEnergy 5; EvClose;
        EvConnect; EvTimeDate; EvMeasure 1; EvMeasure 2; EvMeasure 3;
        EvClose ].
Proof. vm_compute. repeat split; try reflexivity. discriminate. Qed.

(** C5 (as amended): when the transport cannot be opened (and closing it
    does not raise), the four attributes are kept, the paths outside the
    batch keep their values, and every path of the batch is rewritten from
    the kept attributes; so a failed cycle that follows a cycle changes no
    cell of the registry. *)
Theorem failed_open_republishes (c0 c : AuroraSerialClient) (w : world)
    (msg : string) :
  schema_ok (_dbusservice w) = true →
  connect_reply c = Fail msg →
  close_reply c = Reply tt →
  close_reply c0 = Reply tt →
  let w1 := after_update c0 w in
  fields (after_update c w) = fields w
  ∧ (∀ p, ¬ In p update_paths →
          value_at p (_dbusservice (after_update c w))
          = value_at p (_dbusservice w))
  ∧ (∀ p v, In (p, v) (derived w) →
            value_at p (_dbusservice (after_update c w)) = Some v)
  ∧ fields (after_update c w1) = fields w1
  ∧ cells (_dbusservice (after_update c w1)) = cells (_dbusservice w1)
  ∧ (∀ p, value_at p (_dbusservice (after_update c w1))
          = value_at p (_dbusservice w1)).
Proof.
  intros Hs Hc Hcl Hcl0 w1.
  assert (∀ x, fields (after_acquire c x) = fields x) as Hf
    by (intros x; by destruct (acquire_connect_failed c x msg Hc)).
  assert (schema_ok (_dbusservice w1) = true) as Hs1
    by by apply schema_ok_after_update.
  assert (cells (_dbusservice (after_update c w1)) = cells (_dbusservice w1))
    as Hcells.
  { rewrite (after_update_ok c w1 Hs1 Hcl). unfold published at 1.
    cbn [_dbusservice set_dbusservice].
    rewrite after_acquire_dbusservice.
    rewrite (derived_fields (after_acquire c w1) (after_acquire c0 w)).
    - unfold w1. rewrite (after_update_ok c0 w Hs Hcl0). unfold published.
      cbn [_dbusservice set_dbusservice].
      apply commit_twice.
    - rewrite Hf. unfold w1. by rewrite update_fields. }
  split; [by rewrite update_fields|].
  split.
  { intros p Hp. rewrite after_update_ok by done.
    rewrite value_at_published_frame by done.
    by rewrite after_acquire_dbusservice. }
  split.
  { intros p v Hin. apply value_at_batch; [done|done|].
    by rewrite (derived_fields _ w). }
  split; [by rewrite update_fields|].
  split; [done|].
  intros p. by apply value_at_cells.
Qed.

Lemma failed_open_republishes_witness :
  let w1 := after_update scenario (started example_env).2 in
  cells (_dbusservice (after_update absent w1)) = cells (_dbusservice w1).
Proof.
  destruct (failed_open_republishes scenario absent (started example_env).2
              "could not open port" (started_schema example_env) eq_refl
              eq_refl eq_refl)
    as (_ & _ & _ & _ & H & _).
  exact H.
Defined.

(** C5, the claim as stated fails on the first cycle after start-up: the
    transport cannot be opened, and /Ac/Energy/Forward goes from no value
    to 0.0. *)
Lemma first_cycle_overwrites_energy :
  let w := (started example_env).2 in
  connect_reply absent = Fail "could not open port"
  ∧ value_at "/Ac/Energy/Forward" (_dbusservice w) = Some VNone
  ∧ value_at "/Ac/Energy/Forward" (_dbusservice (after_update absent w))
    = Some (VFloat (S754_zero false)).
Proof. vm_compute. repeat split; reflexivity. Qed.

(** C6: every cycle whose closing [close] does not raise, whatever the
    inverter answers to connect and to the requests, returns True and
    republishes /Ac/MaxPower = 10000 and /StatusCode = 7, both in the
    registry and in the notification of the cycle; the two values are
    literals, the same for every inverter and every world. *)
Theorem constants_republished (c : AuroraSerialClient) (w : world) :
  schema_ok (_dbusservice w) = true →
  close_reply c = Reply tt →
  let s := _dbusservice (after_update c w) in
  (_update c w).1 = Ok true
  ∧ value_at "/Ac/MaxPower" s = Some (VInt 10000)
  ∧ value_at "/StatusCode" s = Some (VInt 7)
  ∧ ∃ b, signals s = signals (_dbusservice w) ++ [b]
         ∧ In ("/Ac/MaxPower"%string, VInt 10000) b
         ∧ In ("/StatusCode"%string, VInt 7) b.
Proof.
  intros Hs Hcl s. destruct (constant_paths c w Hs Hcl) as [Hm Hc].
  split; [by rewrite update_ok|].
  do 2 (split; [assumption|]).
  exists (derived (after_acquire c w)). split; [by apply update_signal|].
  unfold derived. split.
  - do 15 right. left. reflexivity.
  - do 16 right. left. reflexivity.
Qed.

Lemma constants_republished_witness :
  let s := _dbusservice (after_update absent (started example_env).2) in
  value_at "/Ac/MaxPower" s = Some (VInt 10000)
  ∧ value_at "/StatusCode" s = Some (VInt 7).
Proof.
  destruct (constants_republished absent (started example_env).2
              (started_schema example_env) eq_refl) as (_ & Hm & Hc & _).
  split; [exact Hm | exact Hc].
Defined.

(** C7 (as amended): on every way out of [_getInverterData], the
    open-failure path included, the last thing sent to the transport is a
    close; the function returns True, unless that close raises. *)
Theorem close_on_every_exit (c : AuroraSerialClient) (w : world) :
  (_getInverterData c w).1
  = match close_reply c with
    | Reply _ => Ok true
    | Fail msg => Raise (AuroraError msg)
    end
  ∧ ∃ sent, wire (after_acquire c w) = wire w ++ sent ++ [EvClose].
Proof.
  split; [by rewrite getInverterData_outcome | apply after_acquire_wire].
Qed.

(** C7, the claim as stated fails: with no device on the port, [connect]
    raises and close is invoked all the same. *)
Lemma close_after_failed_open :
  connect_reply absent = Fail "could not open port"
  ∧ wire (after_acquire absent (started example_env).2)
    = [EvConnect; EvClose].
Proof. vm_compute. split; reflexivity. Qed.

(** C8 (as amended): the timer [main] installs has a period of 10000 ms;
    after any sequence of ticks in which no closing [close] raises
    (whatever the inverter answers to connect and to the requests in each)
    and external writes it is still alive and Idle, no exception has
    escaped, every tick has been dispatched, and the next such tick goes
    Idle -> Running -> Idle with the callback returning True. *)
Theorem scheduler_keeps_ticking (env : environment) (acts : list activity) :
  ticks_close acts = true →
  let tw := foldl perform (started env) acts in
  main env = Ok (started env)
  ∧ interval_ms (started env).1 = 10000
  ∧ interval_ms tw.1 = 10000
  ∧ alive tw.1 = true
  ∧ state tw.1 = Idle
  ∧ uncaught tw.1 = []
  ∧ dispatched tw.1 = count_ticks acts
  ∧ ∀ c, close_reply c = Reply tt →
         (callback tw.1 c tw.2).1 = Ok true
         ∧ state (fire tw.1) = Running
         ∧ state (tick c tw).1 = Idle
         ∧ alive (tick c tw).1 = true
         ∧ uncaught (tick c tw).1 = [].
Proof.
  intros Hcl tw.
  destruct (healthy_foldl acts _ (healthy_started env) Hcl) as [H Hd].
  fold tw in H, Hd. rewrite started_dispatched in Hd.
  split; [apply main_started|].
  split; [by rewrite started_timer|].
  pose proof H as (_ & Hi & Ha & Hst & Hu & _).
  repeat (split; [first [assumption | lia]|]).
  intros c Hc.
  destruct (healthy_tick c tw H Hc)
    as ((_ & _ & Ha' & Hs' & Hu' & _) & _ & Hr).
  by repeat split.
Qed.

Lemma scheduler_keeps_ticking_witness :
  let tw := foldl perform (started example_env)
                  [ Tick absent; ExternalWrite "/Ac/Power" (VInt 1);
                    Tick power_fails; Tick asleep ] in
  alive tw.1 = true
  ∧ state tw.1 = Idle
  ∧ uncaught tw.1 = []
  ∧ dispatched tw.1 = 3%nat
  ∧ alive (tick scenario tw).1 = true.
Proof.
  destruct (scheduler_keeps_ticking example_env
              [ Tick absent; ExternalWrite "/Ac/Power" (VInt 1);
                Tick power_fails; Tick asleep ] eq_refl)
    as (_ & _ & _ & Ha & Hs & Hu & Hd & Hn).
  destruct (Hn scenario eq_refl) as (_ & _ & _ & Ha' & _).
  split; [exact Ha|]. split; [exact Hs|]. split; [exact Hu|].
  split; [exact Hd | exact Ha'].
Defined.

(** C8, the claim as stated fails: the inverter answers every request and
    closing the port raises; the error is raised in the finally clause,
    outside the handler, and leaves [_update]; the timer is destroyed and
    the next tick is not dispatched. *)
Lemma close_error_stops_ticks :
  let tw := tick close_fails (started example_env) in
  close_reply close_fails = Fail "could not close port"
  ∧ (_update close_fails (started example_env).2).1
    = Raise (AuroraError "could not close port")
  ∧ alive (started example_env).1 = true
  ∧ alive tw.1 = false
  ∧ uncaught tw.1 = [AuroraError "could not close port"]
  ∧ dispatched tw.1 = 1%nat
  ∧ dispatched (tick scenario tw).1 = 1%nat
  ∧ wire (tick scenario tw).2 = wire tw.2.
Proof. vm_compute. repeat split; reflexivity. Qed.

(** C9: publishing the same Reading twice in succession: both
    publications complete, the second leaves every cell of the registry as
    the first left it, and every path reads the same value and the same
    formatted string; the same holds for two cycles in which the inverter
    behaves the same. *)
Theorem publishing_twice (r : Reading) (w : world) :
  schema_ok (_dbusservice w) = true →
  let w1 := publish_reading r w in
  let w2 := publish_reading r w1 in
  with_dbusservice derived (with_reading r w) = (Ok tt, w1)
  ∧ with_dbusservice derived (with_reading r w1) = (Ok tt, w2)
  ∧ cells (_dbusservice w2) = cells (_dbusservice w1)
  ∧ (∀ p, read p (_dbusservice w2) = read p (_dbusservice w1))
  ∧ (∀ c p, read p (_dbusservice (after_update c (after_update c w)))
            = read p (_dbusservice (after_update c w))).
Proof.
  intros Hs w1 w2.
  assert (cells (_dbusservice w2) = cells (_dbusservice w1)) as Hcells.
  { unfold w2, w1, publish_reading.
    rewrite (dbusservice_published (with_reading r (published _))).
    rewrite dbusservice_with_reading.
    rewrite (derived_with_reading r (published (with_reading r w)) w).
    rewrite dbusservice_published. apply commit_twice. }
  split; [by apply with_dbusservice_ok|].
  split.
  { apply with_dbusservice_ok. rewrite dbusservice_with_reading.
    unfold w1, publish_reading. by rewrite schema_ok_published. }
  split; [done|].
  split; [intros p; by apply read_cells|].
  intros c p. apply read_cells.
  pose proof (schema_ok_after_update c w Hs) as Hs'.
  destruct (close_reply c) as [[]|msg] eqn:Hcl.
  - rewrite (after_update_ok c (after_update c w) Hs' Hcl).
    rewrite dbusservice_published, after_acquire_dbusservice.
    rewrite (derived_fields (after_acquire c (after_update c w))
                            (after_acquire c w)).
    + rewrite (after_update_ok c w Hs Hcl), dbusservice_published.
      apply commit_twice.
    + rewrite (acquire_again c w); by rewrite update_fields.
  - unfold after_update. rewrite !(update_close_failed c _ msg Hcl).
    cbn [snd]. by rewrite !after_acquire_dbusservice.
Qed.

Lemma publishing_twice_witness :
  let r := mkReading (Py.PyFloat (Py.lit 230 0)) (Py.PyFloat (Py.lit 15 0))
                     (Py.PyFloat (Py.lit 3450 0))
                     (Py.PyFloat (Py.lit 120500 0)) in
  let w1 := publish_reading r (started example_env).2 in
  let w2 := publish_reading r w1 in
  cells (_dbusservice w2) = cells (_dbusservice w1).
Proof.
  intros r.
  destruct (publishing_twice r (started example_env).2
              (started_schema example_env)) as (_ & _ & H & _).
  exact H.
Defined.

(** The strings of the scenario, read back after one and after two
    publications. *)
Lemma scenario_strings :
  let r := mkReading (Py.PyFloat (Py.lit 230 0)) (Py.PyFloat (Py.lit 15 0))
                     (Py.PyFloat (Py.lit 3450 0))
                     (Py.PyFloat (Py.lit 120500 0)) in
  let w1 := publish_reading r (started example_env).2 in
  let w2 := publish_reading r w1 in
  let texts x :=
    map (λ p, match read p (_dbusservice x) with
              | Ok (_, Ok s) => s
              | _ => EmptyString
              end) update_paths in
  texts w1 = [ "3450.0W"; "15.0A"; "230.0V"; "5.0A"; "1150.0W";
               "230.0V"; "5.0A"; "1150.0W"; "230.0V"; "5.0A"; "1150.0W";
               "120.5kWh"; "40.17kWh"; "40.17kWh"; "40.17kWh";
               "10000W"; "7" ]%string
  ∧ texts w2 = texts w1.
Proof. vm_compute. split; reflexivity. Qed.

(** C10: the hook accepts every (path, value); hence, on every path of
    the [paths] dictionary the service was started with, and at any later
    time, a requestWrite commits the proposed value as given and notifies
    it. *)
Theorem external_write_accepted :
  (∀ (path : string) (v : value), _handlechangedvalue path v = true)
  ∧ ∀ env sn di paths pn conn pid tw (acts : list activity)
      (p : string) (v : value),
      __init__ env sn di paths pn conn pid = Ok tw →
      In p (map fst paths) →
      let s := _dbusservice (foldl perform tw acts).2 in
      ∃ s', requestWrite p v s = Ok s'
            ∧ value_at p s' = Some v
            ∧ signals s' = signals s ++ [[(p, v)]].
Proof.
  split; [done|].
  intros env sn di paths pn conn pid tw acts p v Hinit Hp s.
  destruct (init_accepting _ _ _ _ _ _ _ _ p Hinit Hp) as [Hcb Hacc].
  pose proof (accepting_foldl acts tw p Hcb Hacc) as (cl & Hl & Hw & Hh).
  fold s in Hl. unfold requestWrite. rewrite Hl, Hw, Hh. simpl.
  eexists. split; [reflexivity|]. split; [|done].
  unfold value_at; simpl. rewrite lookup_set_value, String.eqb_refl, Hl.
  done.
Qed.

Lemma external_write_accepted_witness :
  let s := _dbusservice (started example_env).2 in
  ∃ s', requestWrite "/Ac/Power" (VFloat (Py.lit 425 (-1))) s = Ok s'
        ∧ value_at "/Ac/Power" s' = Some (VFloat (Py.lit 425 (-1)))
        ∧ signals s'
          = signals s ++ [[("/Ac/Power"%string, VFloat (Py.lit 425 (-1)))]].
Proof.
  apply (proj2 external_write_accepted example_env
           "com.victronenergy.pvinverter.ttyUSB0" 0 main_paths
           "Aurora PV-Inverter" "ttyUSB0" 45069 (started example_env) []
           "/Ac/Power" (VFloat (Py.lit 425 (-1)))
           (main_started example_env)).
  left. reflexivity.
Defined.

(** The write scenarios of the specification: 42.5 written to /Ac/Power
    reads back as 42.5 and "42.5W"; /DeviceInstance is not writable. *)
Lemma write_scenarios :
  let s := _dbusservice (started example_env).2 in
  match requestWrite "/Ac/Power" (VFloat (Py.lit 425 (-1))) s with
  | Ok s' => read "/Ac/Power" s'
  | Raise e => Raise e
  end = Ok (VFloat (Py.lit 425 (-1)), Ok "42.5W"%string)
  ∧ requestWrite "/DeviceInstance" (VInt 1) s
    = Raise (NotWritableError "/DeviceInstance")
  ∧ value_at "/DeviceInstance" s = Some (VInt 0).
Proof. vm_compute. repeat split; reflexivity. Qed.

(** * Further properties *)

(** ** Sessions *)

Section Session.

Variable c : AuroraSerialClient.
Variable w : world.

Ltac session :=
  unfold after_acquire, _getInverterData, try_finally,
    try_except_AuroraError, connect, time_date, measure, cumulated_energy,
    close, logging_error, of_reply, bind, modify, ret, raise;
  unfold transcript, requests_sent, offline, first_failure, obtains_nothing;
  destruct (close_reply c) as [[]|?];
  (destruct (connect_reply c) as [[]|?];
   [ destruct (time_date_reply c) as [t|?];
     [ destruct (t =? -1);
       [ | destruct (measure_reply c 1);
           [ destruct (measure_reply c 2);
             [ destruct (measure_reply c 3);
               [ destruct (cumulated_energy_reply c 5) | ] | ] | ] ] | ] | ]);
  cbn [negb fst snd wire errlog send log_error set_grid_voltage
       set_grid_current set_grid_power set_cum_energy_total
       grid_voltage grid_current grid_power cum_energy_total _dbusservice
       orb fields set_dbusservice].

(** What a session sends, as one list. *)
Lemma session_events :
  wire (after_acquire c w) = wire w ++ transcript c.
Proof. session; by rewrite <- ?app_assoc. Qed.

Lemma requests_sent_le : (requests_sent c ≤ 5)%nat.
Proof.
  unfold requests_sent.
  destruct (connect_reply c); [|lia].
  destruct (time_date_reply c) as [t|]; [|lia].
  destruct (t =? -1); [lia|].
  destruct (measure_reply c 1); [|lia].
  destruct (measure_reply c 2); [|lia].
  destruct (measure_reply c 3); lia.
Qed.

(** X3: a session writes to the error log exactly the message of the
    first call inside the try block that fails, and nothing when every
    one of them is answered. *)
Theorem error_log_first_failure :
  errlog (after_acquire c w)
  = errlog w ++ match first_failure c with Some m => [m] | None => [] end.
Proof. session; by rewrite ?app_nil_r. Qed.

(** X11: an attribute only ever takes the reply to its own request:
    grid_voltage that of channel 1, grid_current of channel 2, grid_power
    of channel 3, cum_energy_total of the cumulated energy of period 5;
    and cum_energy_total is assigned only in a session in which the three
    measurements before it were answered and assigned too. *)
Theorem attributes_from_own_channel :
  let w' := after_acquire c w in
  (grid_voltage w' = grid_voltage w
   ∨ measure_reply c 1 = Reply (grid_voltage w'))
  ∧ (grid_current w' = grid_current w
     ∨ measure_reply c 2 = Reply (grid_current w'))
  ∧ (grid_power w' = grid_power w
     ∨ measure_reply c 3 = Reply (grid_power w'))
  ∧ (cum_energy_total w' = cum_energy_total w
     ∨ (cumulated_energy_reply c 5 = Reply (cum_energy_total w')
        ∧ measure_reply c 1 = Reply (grid_voltage w')
        ∧ measure_reply c 2 = Reply (grid_current w')
        ∧ measure_reply c 3 = Reply (grid_power w'))).
Proof. session; tauto. Qed.

Lemma session_nothing :
  obtains_nothing c = true → fields (after_acquire c w) = fields w.
Proof. session; done. Qed.

(** Acquisition neither reads nor writes the registry. *)
Lemma acquire_set_dbusservice (s : VeDbusService) :
  after_acquire c (set_dbusservice s w)
  = set_dbusservice s (after_acquire c w).
Proof. session; reflexivity. Qed.

End Session.

(** X1: whatever the inverter does, a session sends a connect, then the
    first [k] requests of the protocol (clock, channels 1, 2 and 3,
    cumulated energy of period 5) in that order and nothing else, then one
    close, or two when the inverter reported the offline marker; and
    [_getInverterData] returns True, unless the last close raises, whose
    error then leaves it. *)
Theorem session_shape (c : AuroraSerialClient) (w : world) :
  (_getInverterData c w).1
  = match close_reply c with
    | Reply _ => Ok true
    | Fail msg => Raise (AuroraError msg)
    end
  ∧ ∃ k, (k ≤ 5)%nat
         ∧ wire (after_acquire c w)
           = wire w ++ EvConnect :: take k protocol
                    ++ (if offline c then [EvClose; EvClose] else [EvClose]).
Proof.
  split; [by rewrite getInverterData_outcome|].
  exists (requests_sent c). split; [apply requests_sent_le|].
  apply session_events.
Qed.

(** ** Cycles in a row *)

Lemma foldl_set_value_twice (m : gmap string PathCell)
    (ws : list (string * value)) :
  foldl set_value (foldl set_value m ws) ws = foldl set_value m ws.
Proof.
  apply map_eq. intros p. rewrite !lookup_foldl_set_value.
  destruct (last_write ws p); [|done].
  destruct (m !! p); cbn [fmap option_fmap option_map]; [|done].
  by rewrite with_value_twice.
Qed.

Lemma cells_after_update (c : AuroraSerialClient) (w : world) :
  schema_ok (_dbusservice w) = true →
  close_reply c = Reply tt →
  cells (_dbusservice (after_update c w))
  = foldl set_value (cells (_dbusservice w)) (derived (after_acquire c w)).
Proof.
  intros Hs Hc. rewrite after_update_ok by done.
  rewrite dbusservice_published. unfold commit. cbn [cells base pending].
  by rewrite after_acquire_dbusservice.
Qed.

(** X2: cycles that end before the first measurement is answered (no
    device, a failed clock request, the offline marker, a failed voltage
    request) change no attribute and, when they follow a cycle that ran to
    its end, no cell of the registry, however many of them come in a
    row. *)
Theorem idle_cycles_keep_registry (c0 : AuroraSerialClient)
    (cs : list AuroraSerialClient) (w : world) :
  schema_ok (_dbusservice w) = true →
  close_reply c0 = Reply tt →
  forallb obtains_nothing cs = true →
  let w1 := after_update c0 w in
  fields (cycles cs w1) = fields w1
  ∧ cells (_dbusservice (cycles cs w1)) = cells (_dbusservice w1).
Proof.
  intros Hs Hcl0 Hcs w1.
  assert (schema_ok (_dbusservice w1) = true) as Hs1
    by by apply schema_ok_after_update.
  assert (∀ x,
    schema_ok (_dbusservice x) = true ∧ fields x = fields w1
    ∧ cells (_dbusservice x) = cells (_dbusservice w1) →
    schema_ok (_dbusservice (cycles cs x)) = true
    ∧ fields (cycles cs x) = fields w1
    ∧ cells (_dbusservice (cycles cs x)) = cells (_dbusservice w1)) as H.
  { clear Hs1. induction cs as [|c cs' IH]; intros x Hx; [done|].
    cbn [forallb] in Hcs. apply andb_true_iff in Hcs as [Hc Hcs'].
    unfold cycles. cbn [foldl]. apply (IH Hcs').
    destruct Hx as (Hsx & Hfx & Hcx).
    assert (fields (after_acquire c x) = fields w1) as Hfa
      by by rewrite session_nothing.
    split; [by apply schema_ok_after_update|].
    split; [by rewrite update_fields|].
    destruct (close_reply c) as [[]|msg] eqn:Hcl.
    - rewrite cells_after_update by done.
      rewrite Hcx.
      rewrite (derived_fields (after_acquire c x) (after_acquire c0 w))
        by (rewrite Hfa; apply (update_fields c0 w Hs)).
      unfold w1. rewrite (cells_after_update c0 w Hs Hcl0).
      apply foldl_set_value_twice.
    - unfold after_update. rewrite (update_close_failed c x msg Hcl).
      cbn [snd]. by rewrite after_acquire_dbusservice. }
  by destruct (H w1) as (_ & ? & ?).
Qed.

Lemma idle_cycles_keep_registry_witness :
  let w1 := after_update scenario (started example_env).2 in
  cells (_dbusservice (cycles [absent; asleep; absent] w1))
  = cells (_dbusservice w1).
Proof.
  exact (proj2 (idle_cycles_keep_registry scenario [absent; asleep; absent]
                  (started example_env).2 (started_schema example_env)
                  eq_refl eq_refl)).
Defined.

(** ** The transport over a run of the loop *)

Lemma tick_healthy_world (c : AuroraSerialClient) (tw : timeout * world) :
  healthy tw → (tick c tw).2 = after_update c tw.2.
Proof.
  destruct tw as [t w]. intros (Hcb & _ & Ha & _ & _ & Hs).
  cbn [fst snd] in *. unfold tick, finish, fire.
  cbn [fst snd alive callback]. rewrite Ha, Hcb.
  unfold after_update. by destruct (_update c w) as [[b|e] w'].
Qed.

Lemma tick_healthy_wire (c : AuroraSerialClient) (tw : timeout * world) :
  healthy tw → wire (tick c tw).2 = wire tw.2 ++ transcript c.
Proof.
  intros H. rewrite tick_healthy_world by done.
  destruct H as (_ & _ & _ & _ & _ & Hs).
  rewrite wire_after_update by done. apply session_events.
Qed.

Lemma started_wire env : wire (started env).2 = [].
Proof.
  pose proof (main_started env) as H. destruct (started env) as [t w].
  unfold main in H. apply init_shape in H. by destruct H as (_ & _ & ? & _).
Qed.

Lemma run_sessions (acts : list activity) : ∀ tw,
  healthy tw →
  wire (foldl perform tw acts).2
  = wire tw.2 ++ flat_map transcript (dispatched_ticks acts)
  ∧ dispatched (foldl perform tw acts).1
    = (dispatched tw.1 + length (dispatched_ticks acts))%nat.
Proof.
  induction acts as [|a acts IH]; intros tw H.
  - cbn [foldl dispatched_ticks flat_map length]. rewrite app_nil_r.
    split; [done | lia].
  - cbn [foldl]. destruct a as [c|p v]; cbn [perform dispatched_ticks].
    + pose proof (tick_healthy_wire c tw H) as Hw.
      unfold closes. destruct (close_reply c) as [[]|msg] eqn:Hcl.
      * destruct (healthy_tick c tw H Hcl) as (H' & Hd & _).
        destruct (IH _ H') as [IHw IHd].
        rewrite IHw, IHd, Hw, Hd. cbn [flat_map length].
        rewrite <- app_assoc. split; [done | lia].
      * destruct (tick_close_failed c tw msg H Hcl) as (_ & Ha & _ & _ & Hd).
        destruct (dead_foldl acts _ Ha) as [-> ->].
        rewrite Hw, Hd. cbn [flat_map length]. rewrite app_nil_r.
        split; [done | lia].
    + assert (ticks_close [ExternalWrite p v] = true) as Hc by done.
      destruct (healthy_perform (ExternalWrite p v) tw H Hc) as [H' Hd].
      cbn [perform] in H', Hd.
      destruct (IH _ H') as [IHw IHd]. rewrite IHw, IHd, Hd.
      cbn [count_ticks]. split; [|lia].
      by destruct (requestWrite p v (_dbusservice tw.2)).
Qed.

(** X9: over any run of ticks and external writes from start-up, what
    the process has sent to the transport is the sessions of the ticks the
    timer dispatched, one after the other and nothing else; a session is
    the connect, the requests up to and including the first that fails
    (none of them when the port did not open), and one close, or two after
    the offline marker. *)
Theorem transport_sessions (env : environment) (acts : list activity) :
  let tw := foldl perform (started env) acts in
  wire tw.2 = flat_map transcript (dispatched_ticks acts)
  ∧ dispatched tw.1 = length (dispatched_ticks acts)
  ∧ (ticks_close acts = true →
     length (dispatched_ticks acts) = count_ticks acts)
  ∧ (∀ c msg, connect_reply c = Fail msg →
              transcript c = [EvConnect; EvClose])
  ∧ (∀ c, connect_reply c = Reply tt → time_date_reply c = Reply (-1) →
          transcript c = [EvConnect; EvTimeDate; EvClose; EvClose]).
Proof.
  intros tw.
  destruct (run_sessions acts _ (healthy_started env)) as [Hw Hd].
  fold tw in Hw, Hd. rewrite started_wire in Hw.
  rewrite started_dispatched in Hd.
  split; [exact Hw|]. split; [exact Hd|]. split; [|split].
  - clear. induction acts as [|[c|p v] acts IH];
      cbn [ticks_close dispatched_ticks count_ticks length]; [done| |done].
    intros H. apply andb_true_iff in H as [-> H]. by rewrite IH.
  - intros c msg H. unfold transcript, requests_sent, offline. by rewrite H.
  - intros c H1 H2. unfold transcript, requests_sent, offline.
    by rewrite H1, H2.
Qed.

(** ** Writes from outside and the next tick *)

Lemma last_write_registered (ws : list (string * value)) (p : string) :
  In p (map fst ws) → ∃ v, last_write ws p = Some v.
Proof.
  induction ws as [|[q v] ws IH]; cbn [map In fst last_write]; [done|].
  intros [->|Hin].
  - destruct (last_write ws p); [eauto|]. rewrite String.eqb_refl. eauto.
  - destruct (IH Hin) as [v' ->]. eauto.
Qed.

Lemma foldl_set_value_overwrites (m : gmap string PathCell)
    (ws : list (string * value)) (p : string) (v : value) :
  In p (map fst ws) →
  foldl set_value (set_value m (p, v)) ws = foldl set_value m ws.
Proof.
  intros Hp. apply map_eq. intros q.
  rewrite !lookup_foldl_set_value, lookup_set_value.
  destruct (String.eqb_spec p q) as [<-|Hne]; [|done].
  destruct (last_write_registered ws p Hp) as [v' ->].
  destruct (m !! p); cbn [fmap option_fmap option_map]; [|done].
  by rewrite with_value_twice.
Qed.

(** X4: a value written from outside to a path of the batch lasts until
    the next tick that runs to its end: the tick leaves every cell of the
    registry as it would have without the write. *)
Theorem external_write_overwritten (c : AuroraSerialClient) (w : world)
    (p : string) (v : value) (s' : VeDbusService) :
  schema_ok (_dbusservice w) = true →
  close_reply c = Reply tt →
  In p update_paths →
  requestWrite p v (_dbusservice w) = Ok s' →
  cells (_dbusservice (after_update c (set_dbusservice s' w)))
  = cells (_dbusservice (after_update c w)).
Proof.
  intros Hs Hcl Hp Hw.
  assert (schema_ok s' = true) as Hs'
    by by rewrite (requestWrite_schema _ _ _ _ Hw).
  rewrite (cells_after_update c w Hs Hcl).
  rewrite cells_after_update by done.
  rewrite acquire_set_dbusservice.
  rewrite (derived_fields (set_dbusservice s' (after_acquire c w))
                          (after_acquire c w)) by done.
  cbn [_dbusservice set_dbusservice].
  unfold requestWrite in Hw.
  destruct (cells (_dbusservice w) !! p) as [cl|]; [|done].
  destruct (negb (cell_writable cl)); [done|].
  destruct (cell_onChange cl p v); injection Hw as <-; [|done].
  cbn [cells]. apply foldl_set_value_overwrites.
  by rewrite derived_paths.
Qed.

Lemma external_write_overwritten_witness :
  let w := (started example_env).2 in
  match requestWrite "/Ac/Power" (VFloat (Py.lit 425 (-1)))
                     (_dbusservice w) with
  | Ok s' =>
      cells (_dbusservice (after_update scenario (set_dbusservice s' w)))
      = cells (_dbusservice (after_update scenario w))
  | Raise _ => False
  end.
Proof.
  intros w.
  assert (match requestWrite "/Ac/Power" (VFloat (Py.lit 425 (-1)))
                             (_dbusservice w) with
          | Ok _ => true
          | Raise _ => false
          end = true) as Hok by (vm_compute; reflexivity).
  destruct (requestWrite "/Ac/Power" (VFloat (Py.lit 425 (-1)))
                         (_dbusservice w)) as [s'|e] eqn:E.
  - apply (external_write_overwritten scenario w "/Ac/Power"
             (VFloat (Py.lit 425 (-1))) s' (started_schema example_env)
             eq_refl);
      [left; reflexivity | exact E].
  - discriminate Hok.
Defined.

(** ** The kind of value a cycle publishes *)

Lemma update_path_number (c : AuroraSerialClient) (w : world) (p : string) :
  schema_ok (_dbusservice w) = true →
  close_reply c = Reply tt →
  In p update_paths →
  ∃ x, value_at p (_dbusservice (after_update c w)) = Some (of_num x).
Proof.
  intros Hs Hcl Hp.
  destruct (total_paths c w Hs Hcl) as [Tp Ti].
  destruct (constant_paths c w Hs Hcl) as [Cm Cs].
  pose proof (voltage_path c w Hs Hcl) as Lv.
  pose proof (current_path c w Hs Hcl) as Li.
  pose proof (power_path c w Hs Hcl) as Lp.
  pose proof (energy_path c w Hs Hcl) as Le.
  pose proof (energy_total_path c w Hs Hcl) as Et.
  unfold update_paths in Hp. cbn [In] in Hp. unfold rounded in *.
  repeat (destruct Hp as [<-|Hp];
          [ first [ by eexists; apply Tp | by eexists; apply Ti
                  | by eexists; apply Lv; cbn; tauto
                  | by eexists; apply Li; cbn; tauto
                  | by eexists; apply Lp; cbn; tauto
                  | by eexists; apply Le; cbn; tauto
                  | by eexists; apply Et
                  | by exists (Py.PyInt 10000)
                  | by exists (Py.PyInt 7) ] | ]).
  destruct Hp.
Qed.

(** [round(x, 2)] is an int exactly when [x] is, and then it is [x]. *)
Lemma rounded_int (x : Py.num) (n : Z) :
  Some (rounded x) = Some (VInt n) ↔ x = Py.PyInt n.
Proof.
  destruct x as [m|f]; cbn; split; intros H; by inversion H.
Qed.

(** X5: after a cycle that runs to its end every path of the batch holds
    a number, never None or a string; the ten paths computed by a division
    (three phase currents, three phase powers, four energies) hold a float
    whatever the attributes are, while /Ac/Power, /Ac/Current and the
    three phase voltages hold the int [n] exactly when the attribute they
    are rounded from is the int [n] (as the class default 0 is, before the
    first measurement). *)
Theorem published_numbers (c : AuroraSerialClient) (w : world) :
  schema_ok (_dbusservice w) = true →
  close_reply c = Reply tt →
  let s := _dbusservice (after_update c w) in
  (∀ p, In p update_paths → ∃ x, value_at p s = Some (of_num x))
  ∧ length divided_paths = 10%nat
  ∧ (∀ p, In p divided_paths → ∃ f, value_at p s = Some (VFloat f))
  ∧ (∀ n, value_at "/Ac/Power" s = Some (VInt n)
          ↔ grid_power (after_acquire c w) = Py.PyInt n)
  ∧ (∀ n, value_at "/Ac/Current" s = Some (VInt n)
          ↔ grid_current (after_acquire c w) = Py.PyInt n)
  ∧ (∀ n p, In p voltage_paths →
            value_at p s = Some (VInt n)
            ↔ grid_voltage (after_acquire c w) = Py.PyInt n).
Proof.
  intros Hs Hcl s.
  destruct (total_paths c w Hs Hcl) as [Tp Ti].
  destruct (constant_paths c w Hs Hcl) as [Cm Cs].
  pose proof (voltage_path c w Hs Hcl) as Lv.
  pose proof (current_path c w Hs Hcl) as Li.
  pose proof (power_path c w Hs Hcl) as Lp.
  pose proof (energy_path c w Hs Hcl) as Le.
  pose proof (energy_total_path c w Hs Hcl) as Et.
  split; [|split; [|split; [|split; [|split]]]].
  - intros p Hp. by apply update_path_number.
  - reflexivity.
  - intros p Hp. unfold divided_paths in Hp.
    apply in_app_or in Hp as [Hp|Hp]; [|apply in_app_or in Hp as [Hp|Hp]].
    + eexists. by apply Li.
    + eexists. by apply Lp.
    + destruct Hp as [<-|Hp]; eexists; [by apply Et | by apply Le].
  - intros n. unfold s. rewrite Tp. apply rounded_int.
  - intros n. unfold s. rewrite Ti. apply rounded_int.
  - intros n p Hp. unfold s. rewrite (Lv p Hp). apply rounded_int.
Qed.

Lemma published_numbers_witness :
  let s := _dbusservice (after_update absent (started example_env).2) in
  let s' := _dbusservice (after_update scenario (started example_env).2) in
  value_at "/Ac/Power" s = Some (VInt 0)
  ∧ (∃ f, value_at "/Ac/L1/Power" s = Some (VFloat f))
  ∧ ∀ n, value_at "/Ac/Power" s' ≠ Some (VInt n).
Proof.
  destruct (published_numbers absent (started example_env).2
              (started_schema example_env) eq_refl) as (_ & _ & Hd & Hp & _).
  destruct (published_numbers scenario (started example_env).2
              (started_schema example_env) eq_refl)
    as (_ & _ & _ & Hp' & _).
  split; [|split].
  - apply Hp. vm_compute. reflexivity.
  - apply Hd. vm_compute. tauto.
  - intros n H. apply Hp' in H. revert H. vm_compute. discriminate.
Defined.

(** ** Registration *)

Section AddPaths.

Context {A : Type}.
Variable key : A → string.
Variable cell : A → PathCell.
Variable add : A → VeDbusService → res VeDbusService.
Hypothesis add_spec : ∀ x s,
  add x s = match cells s !! key x with
            | Some _ => Raise (DuplicatePathError (key x))
            | None => Ok (mkBus (<[key x := cell x]> (cells s)) (signals s))
            end.

Lemma add_paths_keeps (ps : list A) : ∀ (s s' : VeDbusService) q cl,
  add_paths add ps s = Ok s' →
  cells s !! q = Some cl → cells s' !! q = Some cl.
Proof.
  induction ps as [|x ps IH]; intros s s' q cl H Hq; cbn [add_paths] in H.
  - by injection H as <-.
  - rewrite add_spec in H. destruct (cells s !! key x) eqn:E; [done|].
    apply (IH _ _ q cl H). cbn [cells].
    rewrite lookup_insert_ne; [done|]. congruence.
Qed.

Lemma add_paths_adds (ps : list A) : ∀ (s s' : VeDbusService) x,
  add_paths add ps s = Ok s' →
  In x ps → cells s' !! key x = Some (cell x).
Proof.
  induction ps as [|y ps IH]; intros s s' x H Hx; [done|].
  cbn [add_paths] in H. rewrite add_spec in H.
  destruct (cells s !! key y) eqn:E; [done|].
  destruct Hx as [->|Hx]; [|by apply (IH _ _ x H)].
  apply (add_paths_keeps ps _ _ _ _ H). cbn [cells].
  by rewrite lookup_insert_eq.
Qed.

Lemma add_paths_only (ps : list A) : ∀ (s s' : VeDbusService) q,
  add_paths add ps s = Ok s' →
  is_Some (cells s' !! q) →
  is_Some (cells s !! q) ∨ In q (map key ps).
Proof.
  induction ps as [|y ps IH]; intros s s' q H Hq; cbn [add_paths] in H.
  - injection H as <-. by left.
  - rewrite add_spec in H. destruct (cells s !! key y) eqn:E; [done|].
    destruct (IH _ _ q H Hq) as [Hs|Hin]; [|right; by right].
    cbn [cells] in Hs. destruct (decide (key y = q)) as [<-|Hne].
    + right. by left.
    + left. by rewrite lookup_insert_ne in Hs.
Qed.

End AddPaths.

(** The cells a successful [__init__] leaves. *)
Lemma init_cells env sn di paths pn conn pid tw :
  __init__ env sn di paths pn conn pid = Ok tw →
  callback tw.1 = _update
  ∧ (∀ q v, In (q, v) (fixed_values env di pn conn pid) →
            cells (_dbusservice tw.2) !! q
            = Some (mkCell v default_formatter false default_hook))
  ∧ (∀ q st, In (q, st) paths →
             cells (_dbusservice tw.2) !! q
             = Some (mkCell (initial st) (textformat st) true
                            _handlechangedvalue))
  ∧ (∀ q, is_Some (cells (_dbusservice tw.2) !! q) →
          In q fixed_paths ∨ In q (map fst paths)).
Proof.
  unfold __init__.
  change [ ("/Mgmt/ProcessName"%string, VStr (__file__ env)); _; _; _; _; _;
           _; _; _; _; _; _; _ ]
    with (fixed_values env di pn conn pid).
  destruct (add_paths _ (fixed_values env di pn conn pid) Registry.empty)
    as [s|e] eqn:E1; [|done].
  destruct (add_paths _ paths s) as [s'|e] eqn:E2; [|done].
  intros [= <-]. cbn [fst snd callback timeout_add _dbusservice].
  split; [done|]. split; [|split].
  - intros q v Hin.
    eapply (add_paths_keeps fst
              (λ p, mkCell (initial p.2) (textformat p.2) true
                           _handlechangedvalue)); [done|exact E2|].
    by apply (add_paths_adds fst
                (λ p : string * value,
                   mkCell p.2 default_formatter false default_hook)
                _ (λ _ _, eq_refl) _ _ _ (q, v) E1).
  - intros q st Hin.
    by apply (add_paths_adds fst
                (λ p, mkCell (initial p.2) (textformat p.2) true
                             _handlechangedvalue)
                _ (λ _ _, eq_refl) _ _ _ (q, st) E2).
  - intros q Hq.
    destruct (add_paths_only fst _ _ (λ _ _, eq_refl) _ _ _ q E2 Hq)
      as [Hs|Hin]; [|by right].
    destruct (add_paths_only fst _ _ (λ _ _, eq_refl) _ _ _ q E1 Hs)
      as [Hs'|Hin]; [|by left].
    cbn in Hs'. rewrite lookup_empty in Hs'. by destruct Hs'.
Qed.

(** ** What writes leave alone *)

Lemma setitems_pending (ws : list (string * value)) :
  ∀ (c c' : ServiceContext),
  setitems c ws = Ok c' → pending c' = pending c ++ ws.
Proof.
  induction ws as [|x ws IH]; intros c c' H; cbn [setitems] in H.
  - injection H as <-. by rewrite app_nil_r.
  - unfold setitem in H. destruct (cells (base c) !! x.1); [|done].
    apply IH in H. cbn [pending] in H. by rewrite H, <- app_assoc.
Qed.

(** The registry after [_update], whether the batch was committed or
    not. *)
Lemma cells_update (c : AuroraSerialClient) (w : world) :
  ∃ ws, (ws = [] ∨ ws = derived (after_acquire c w))
        ∧ cells (_dbusservice (_update c w).2)
          = foldl set_value (cells (_dbusservice w)) ws.
Proof.
  unfold _update, bind. rewrite getInverterData_outcome.
  destruct (close_reply c); cbn [snd];
    [|exists []; split; [by left|]; by rewrite after_acquire_dbusservice].
  unfold with_dbusservice.
  destruct (setitems _ _) as [ctx|e] eqn:E; cbn [snd].
  - exists (derived (after_acquire c w)). split; [by right|].
    pose proof (setitems_base _ _ _ E) as Hb.
    pose proof (setitems_pending _ _ _ E) as Hp.
    cbn [enter base pending app] in Hb, Hp.
    cbn [_dbusservice set_dbusservice]. unfold commit. cbn [cells].
    by rewrite Hb, Hp, after_acquire_dbusservice.
  - exists []. split; [by left|]. by rewrite after_acquire_dbusservice.
Qed.

Lemma static_with_value (v : value) (cl : PathCell) :
  static (with_value v cl) = static cl.
Proof. done. Qed.

Lemma static_foldl_set_value (m : gmap string PathCell)
    (ws : list (string * value)) (p : string) :
  static <$> foldl set_value m ws !! p = static <$> m !! p.
Proof.
  rewrite lookup_foldl_set_value.
  destruct (last_write ws p); [|done]. by destruct (m !! p).
Qed.

Lemma cell_foldl_set_value_frame (m : gmap string PathCell)
    (ws : list (string * value)) (p : string) :
  ¬ In p (map fst ws) → foldl set_value m ws !! p = m !! p.
Proof.
  intros Hp. rewrite lookup_foldl_set_value.
  destruct (last_write ws p) eqn:E; [|done].
  by apply last_write_In in E.
Qed.

Lemma requestWrite_cells (q : string) (v : value) (s s' : VeDbusService) :
  requestWrite q v s = Ok s' →
  cells s' = cells s
  ∨ (cells s' = set_value (cells s) (q, v)
     ∧ ∃ cl, cells s !! q = Some cl ∧ cell_writable cl = true).
Proof.
  unfold requestWrite. destruct (cells s !! q) as [cl|] eqn:E; [|done].
  destruct (cell_writable cl) eqn:Ew; [|done]. cbn [negb].
  destruct (cell_onChange cl q v); intros [= <-]; [|by left].
  right. split; [done|]. eauto.
Qed.

(** One activity of the loop: the static part of every cell stays, and a
    cell that is not writable and lies outside the batch stays whole. *)
Lemma perform_static (a : activity) (tw : timeout * world) (p : string) :
  callback tw.1 = _update →
  callback (perform tw a).1 = _update
  ∧ static <$> cells (_dbusservice (perform tw a).2) !! p
    = static <$> cells (_dbusservice tw.2) !! p
  ∧ (¬ In p update_paths →
     cell_writable <$> cells (_dbusservice tw.2) !! p = Some false →
     cells (_dbusservice (perform tw a).2) !! p
     = cells (_dbusservice tw.2) !! p).
Proof.
  destruct tw as [t w]. cbn [fst snd]. intros Hcb.
  destruct a as [c|q v]; cbn [perform fst snd].
  - unfold tick. cbn [fst snd]. destruct (alive t); [|done].
    unfold finish, fire. cbn [callback interval_ms]. rewrite Hcb.
    destruct (cells_update c w) as (ws & Hws & Hc).
    destruct (_update c w) as [[b|e] w']; cbn [fst snd callback] in *;
      (split; [done|]); rewrite Hc;
      (split; [apply static_foldl_set_value|]);
      intros Hp _; apply cell_foldl_set_value_frame;
      (destruct Hws as [->| ->]; [by intros [] | by rewrite derived_paths]).
  - destruct (requestWrite q v (_dbusservice w)) as [s'|e] eqn:E;
      cbn [fst snd _dbusservice set_dbusservice]; [|done].
    split; [done|].
    destruct (requestWrite_cells _ _ _ _ E) as [->|[-> (cl & Hq & Hw)]];
      [done|].
    rewrite lookup_set_value.
    destruct (String.eqb_spec q p) as [->|Hne]; [|done].
    split; [by destruct (cells (_dbusservice w) !! p)|].
    intros _ Hnw. rewrite Hq in Hnw. cbn in Hnw. congruence.
Qed.

Lemma run_static (acts : list activity) : ∀ (tw : timeout * world) p,
  callback tw.1 = _update →
  static <$> cells (_dbusservice (foldl perform tw acts).2) !! p
  = static <$> cells (_dbusservice tw.2) !! p
  ∧ (¬ In p update_paths →
     cell_writable <$> cells (_dbusservice tw.2) !! p = Some false →
     cells (_dbusservice (foldl perform tw acts).2) !! p
     = cells (_dbusservice tw.2) !! p).
Proof.
  induction acts as [|a acts IH]; intros tw p Hcb; [done|].
  cbn [foldl]. destruct (perform_static a tw p Hcb) as (Hcb' & Hst & Hfr).
  destruct (IH (perform tw a) p Hcb') as [Hst' Hfr'].
  split; [by rewrite Hst', Hst|].
  intros Hp Hnw. rewrite Hfr', Hfr; try done.
  by rewrite Hfr.
Qed.

Lemma static_writable (a b : option PathCell) :
  static <$> a = static <$> b → cell_writable <$> a = cell_writable <$> b.
Proof. destruct a, b; cbn; intros [=]; congruence. Qed.

Lemma not_in_paths (l : list string) (q : string) :
  forallb (λ x, negb (String.eqb x q)) l = true → ¬ In q l.
Proof.
  rewrite forallb_forall. intros H Hq. specialize (H q Hq).
  by rewrite String.eqb_refl in H.
Qed.

Lemma fixed_not_batch (q : string) :
  In q fixed_paths → q ≠ "/StatusCode"%string → ¬ In q update_paths.
Proof.
  intros Hin Hq. unfold fixed_paths in Hin. cbn [In] in Hin.
  repeat (destruct Hin as [<-|Hin];
          [first [ by apply not_in_paths; vm_compute
                 | by destruct Hq ]|]).
  destruct Hin.
Qed.

(** X7: the paths [__init__] registers with fixed values, /StatusCode
    aside, hold the constructor's arguments for good: after any run of
    ticks and external writes each still reads the value it was registered
    with, and a write to it from outside is refused. *)
Theorem identity_paths_frozen env sn di paths pn conn pid tw
    (acts : list activity) (q : string) (v : value) :
  __init__ env sn di paths pn conn pid = Ok tw →
  In (q, v) (fixed_values env di pn conn pid) →
  q ≠ "/StatusCode"%string →
  let s := _dbusservice (foldl perform tw acts).2 in
  value_at q s = Some v
  ∧ ∀ v', requestWrite q v' s = Raise (NotWritableError q).
Proof.
  intros Hinit Hin Hq s.
  destruct (init_cells _ _ _ _ _ _ _ _ Hinit) as (Hcb & Hfix & _).
  pose proof (Hfix q v Hin) as Hcell.
  assert (¬ In q update_paths) as Hnb.
  { apply fixed_not_batch; [|done].
    change fixed_paths with (map fst (fixed_values env di pn conn pid)).
    by apply (in_map fst _ (q, v)). }
  destruct (run_static acts tw q Hcb) as [_ Hfr].
  assert (cells s !! q
          = Some (mkCell v default_formatter false default_hook)) as Hs.
  { unfold s. rewrite Hfr; [done|done|]. by rewrite Hcell. }
  split.
  - unfold value_at. by rewrite Hs.
  - intros v'. unfold requestWrite. by rewrite Hs.
Qed.

Lemma identity_paths_frozen_witness :
  let s := _dbusservice
             (foldl perform (started example_env)
                    [ Tick scenario;
                      ExternalWrite "/DeviceInstance" (VInt 5);
                      Tick absent ]).2 in
  value_at "/DeviceInstance" s = Some (VInt 0)
  ∧ ∀ v', requestWrite "/DeviceInstance" v' s
          = Raise (NotWritableError "/DeviceInstance").
Proof.
  apply (identity_paths_frozen example_env
           "com.victronenergy.pvinverter.ttyUSB0" 0 main_paths
           "Aurora PV-Inverter" "ttyUSB0" 45069 (started example_env)
           _ "/DeviceInstance" (VInt 0) (main_started example_env)).
  - do 3 right. left. reflexivity.
  - discriminate.
Defined.

Lemma in_paths (l : list string) (q : string) :
  existsb (String.eqb q) l = true → In q l.
Proof.
  rewrite existsb_exists. intros (x & Hx & Heq).
  by apply String.eqb_eq in Heq as ->.
Qed.

Lemma static_is_Some (a b : option PathCell) :
  static <$> a = static <$> b → is_Some a ↔ is_Some b.
Proof. destruct a, b; cbn; intros [=]; split; intros [? ?]; eauto; done. Qed.

(** X10: the registered paths are the thirteen fixed paths and the keys
    of the [paths] argument, no more and no fewer, at start-up and after
    any run of ticks and external writes: nothing registers or removes a
    path once [__init__] has returned. *)
Theorem registered_paths env sn di paths pn conn pid tw
    (acts : list activity) (q : string) :
  __init__ env sn di paths pn conn pid = Ok tw →
  is_Some (cells (_dbusservice (foldl perform tw acts).2) !! q)
  ↔ In q fixed_paths ∨ In q (map fst paths).
Proof.
  intros Hinit.
  destruct (init_cells _ _ _ _ _ _ _ _ Hinit) as (Hcb & Hfix & Htel & Honly).
  destruct (run_static acts tw q Hcb) as [Hst _].
  rewrite (static_is_Some _ _ Hst). split; [apply Honly|].
  intros [Hin|Hin].
  - change fixed_paths with (map fst (fixed_values env di pn conn pid)) in Hin.
    apply in_map_iff in Hin as ([q' v] & Heq & Hin).
    cbn [fst] in Heq. subst q'. rewrite (Hfix _ _ Hin). eauto.
  - apply in_map_iff in Hin as ([q' st] & Heq & Hin).
    cbn [fst] in Heq. subst q'. rewrite (Htel _ _ Hin). eauto.
Qed.

Lemma registered_paths_witness :
  is_Some (cells (_dbusservice
                    (foldl perform (started example_env)
                           [Tick absent; Tick scenario]).2)
           !! "/Ac/L2/Voltage"%string).
Proof.
  apply (registered_paths example_env
           "com.victronenergy.pvinverter.ttyUSB0" 0 main_paths
           "Aurora PV-Inverter" "ttyUSB0" 45069 (started example_env)
           _ "/Ac/L2/Voltage" (main_started example_env)).
  right. apply in_paths. vm_compute. reflexivity.
Defined.

(** ** The status code *)

Lemma status_code_step (a : activity) (tw : timeout * world) (n : Z) :
  healthy tw →
  ticks_close [a] = true →
  cell_writable <$> cells (_dbusservice tw.2) !! "/StatusCode"%string
  = Some false →
  value_at "/StatusCode" (_dbusservice tw.2) = Some (VInt n) →
  value_at "/StatusCode" (_dbusservice (perform tw a).2)
  = Some (VInt (if (count_ticks [a] =? 0)%nat then n else 7)).
Proof.
  intros Hh Hcl Hnw Hv.
  destruct a as [c|q v]; cbn [perform count_ticks Nat.eqb].
  - rewrite tick_healthy_world by done.
    cbn [ticks_close] in Hcl. apply andb_true_iff in Hcl as [Hcl _].
    apply closes_reply in Hcl.
    destruct Hh as (_ & _ & _ & _ & _ & Hs).
    by destruct (constant_paths c tw.2 Hs Hcl).
  - destruct (requestWrite q v (_dbusservice tw.2)) as [s'|e] eqn:E;
      cbn [snd _dbusservice set_dbusservice]; [|done].
    destruct (requestWrite_cells _ _ _ _ E) as [Hc|[Hc (cl & Hq & Hw)]].
    + by rewrite (value_at_cells s' (_dbusservice tw.2)).
    + unfold value_at in *. rewrite Hc, lookup_set_value.
      destruct (String.eqb_spec q "/StatusCode") as [->|Hne]; [|done].
      rewrite Hq in Hnw. cbn in Hnw. congruence.
Qed.

Lemma status_code_run (acts : list activity) :
  ∀ (tw : timeout * world) (n : Z),
  healthy tw →
  ticks_close acts = true →
  cell_writable <$> cells (_dbusservice tw.2) !! "/StatusCode"%string
  = Some false →
  value_at "/StatusCode" (_dbusservice tw.2) = Some (VInt n) →
  value_at "/StatusCode" (_dbusservice (foldl perform tw acts).2)
  = Some (VInt (if (count_ticks acts =? 0)%nat then n else 7)).
Proof.
  induction acts as [|a acts IH]; intros tw n Hh Hcl Hnw Hv; [done|].
  rewrite ticks_close_cons in Hcl. apply andb_true_iff in Hcl as [Ha Hcl].
  cbn [foldl].
  pose proof (status_code_step a tw n Hh Ha Hnw Hv) as Hv'.
  destruct (healthy_perform a tw Hh Ha) as [Hh' _].
  destruct Hh as (Hcb & _).
  destruct (perform_static a tw "/StatusCode" Hcb) as (_ & Hst & _).
  apply static_writable in Hst. rewrite Hnw in Hst.
  rewrite (IH _ _ Hh' Hcl Hst Hv').
  destruct a; cbn [count_ticks Nat.eqb]; [|done].
  by destruct (count_ticks acts =? 0)%nat.
Qed.

Lemma started_cells env :
  callback (started env).1 = _update
  ∧ (∀ q v,
        In (q, v)
           (fixed_values env 0 "Aurora PV-Inverter" "ttyUSB0" 45069) →
        cells (_dbusservice (started env).2) !! q
        = Some (mkCell v default_formatter false default_hook))
  ∧ (∀ q st, In (q, st) main_paths →
             cells (_dbusservice (started env).2) !! q
             = Some (mkCell (initial st) (textformat st) true
                            _handlechangedvalue)).
Proof.
  pose proof (main_started env) as H. unfold main in H.
  destruct (init_cells _ _ _ _ _ _ _ _ H) as (H1 & H2 & H3 & _).
  exact (conj H1 (conj H2 H3)).
Qed.

(** X8: /StatusCode reads 0 from start-up until the first tick and 7 from
    then on, whatever the inverter answers to connect and to the requests
    and whatever is written from outside, in a run in which no closing
    [close] raises; a write to it from outside is refused in every run. *)
Theorem status_code_by_ticks (env : environment) (acts : list activity) :
  let s := _dbusservice (foldl perform (started env) acts).2 in
  (ticks_close acts = true →
   value_at "/StatusCode" s
   = Some (VInt (if (count_ticks acts =? 0)%nat then 0 else 7)))
  ∧ ∀ v, requestWrite "/StatusCode" v s
         = Raise (NotWritableError "/StatusCode").
Proof.
  intros s. destruct (started_cells env) as (Hcb & Hfix & _).
  assert (cells (_dbusservice (started env).2) !! "/StatusCode"%string
          = Some (mkCell (VInt 0) default_formatter false default_hook))
    as Hcell by (apply Hfix; do 10 right; left; reflexivity).
  split.
  - intros Hcl. apply status_code_run; [apply healthy_started|done| |].
    + by rewrite Hcell.
    + unfold value_at. by rewrite Hcell.
  - intros v. destruct (run_static acts (started env) "/StatusCode" Hcb)
      as [Hst _].
    apply static_writable in Hst. rewrite Hcell in Hst. fold s in Hst.
    unfold requestWrite. destruct (cells s !! "/StatusCode"%string) as [cl|];
      [|done].
    cbn in Hst. injection Hst as ->. done.
Qed.

Lemma status_code_by_ticks_witness :
  let run acts := _dbusservice (foldl perform (started example_env) acts).2 in
  value_at "/StatusCode" (run [ExternalWrite "/StatusCode" (VInt 3)])
  = Some (VInt 0)
  ∧ value_at "/StatusCode"
             (run [Tick absent; ExternalWrite "/StatusCode" (VInt 3)])
    = Some (VInt 7).
Proof.
  split.
  - exact (proj1 (status_code_by_ticks example_env
                    [ExternalWrite "/StatusCode" (VInt 3)]) eq_refl).
  - exact (proj1 (status_code_by_ticks example_env
                    [Tick absent; ExternalWrite "/StatusCode" (VInt 3)])
                 eq_refl).
Defined.

(** ** Display strings *)

Lemma str_round_unit_numeric (ndigits : Z) (unit q : string) (x : Py.num) :
  ∃ str, str_round_unit ndigits unit q (of_num x) = Ok str.
Proof. destruct x; eexists; reflexivity. Qed.

Lemma default_formatter_numeric (q : string) (x : Py.num) :
  ∃ str, default_formatter q (of_num x) = Ok str.
Proof. destruct x; eexists; reflexivity. Qed.

Lemma main_formatters_numeric :
  Forall (λ qs : string * settings,
            ∀ q x, ∃ str, textformat qs.2 q (of_num x) = Ok str)
         main_paths.
Proof.
  unfold main_paths.
  repeat (apply List.Forall_cons;
          [intros q x; apply str_round_unit_numeric|]).
  apply List.Forall_nil.
Qed.

Lemma batch_path_kind (p : string) :
  In p update_paths →
  p = "/StatusCode"%string ∨ In p (map fst main_paths).
Proof.
  intros Hp. unfold update_paths in Hp. cbn [In] in Hp.
  repeat (destruct Hp as [<-|Hp];
          [first [ by right; apply in_paths; vm_compute | by left ]|]).
  destruct Hp.
Qed.

(** The formatter a path of the batch was registered with by [main]
    formats every number. *)
Lemma started_formatter env (p : string) :
  In p update_paths →
  ∃ cl, cells (_dbusservice (started env).2) !! p = Some cl
        ∧ ∀ x, ∃ str, cell_formatter cl p (of_num x) = Ok str.
Proof.
  intros Hp. destruct (started_cells env) as (_ & Hfix & Htel).
  destruct (batch_path_kind p Hp) as [->|Hin].
  - eexists. split; [apply Hfix; do 10 right; left; reflexivity|].
    intros x. apply default_formatter_numeric.
  - apply in_map_iff in Hin as ([q st] & Heq & Hin).
    cbn [fst] in Heq. subst q.
    eexists. split; [by apply Htel|]. intros x. cbn [cell_formatter].
    pose proof main_formatters_numeric as HF.
    rewrite List.Forall_forall in HF. apply (HF (p, st) Hin).
Qed.

(** X6: from the first tick on, right after every tick each of the 17
    paths of the batch reads back as a number together with a display
    string, as long as no closing [close] has raised: the formatting
    lambdas of [main] never fail on what a cycle publishes.  Before the
    first tick the four energy paths hold None, on which the kWh lambda
    raises TypeError. *)
Theorem display_after_tick (env : environment) (acts : list activity)
    (c : AuroraSerialClient) :
  let tw := foldl perform (started env) acts in
  (ticks_close acts = true → close_reply c = Reply tt →
   ∀ p, In p update_paths →
        ∃ x str, read p (_dbusservice (tick c tw).2)
                 = Ok (of_num x, Ok str))
  ∧ (∀ p, In p ("/Ac/Energy/Forward"%string :: energy_paths) →
          read p (_dbusservice (started env).2)
          = Ok (VNone, Raise TypeError)).
Proof.
  intros tw. split.
  - intros Hcl Hc p Hp.
    destruct (healthy_foldl acts _ (healthy_started env) Hcl) as [Hh _].
    fold tw in Hh. pose proof Hh as (Hcb & _ & _ & _ & _ & Hs).
    destruct (started_formatter env p Hp) as (cl0 & Hcl0 & Hnum).
    destruct (started_cells env) as (Hcb0 & _).
    destruct (run_static acts (started env) p Hcb0) as [Hst _].
    fold tw in Hst.
    destruct (perform_static (Tick c) tw p Hcb) as (_ & Hst' & _).
    cbn [perform] in Hst'. rewrite Hst, Hcl0 in Hst'.
    destruct (update_path_number c tw.2 p Hs Hc Hp) as [x Hx].
    rewrite <- (tick_healthy_world c tw Hh) in Hx.
    unfold value_at in Hx. unfold read.
    destruct (cells (_dbusservice (tick c tw).2) !! p) as [cl|]; [|done].
    cbn in Hx, Hst'. injection Hx as Hx. injection Hst' as Hf _ _.
    rewrite Hx, Hf. destruct (Hnum x) as [str ->]. eauto.
  - intros p Hp. destruct (started_cells env) as (_ & _ & Htel).
    unfold read. cbn [In energy_paths] in Hp.
    destruct Hp as [<-|[<-|[<-|[<-|[]]]]].
    + by rewrite (Htel _ (mkSettings VNone _kwh))
        by (do 11 right; left; reflexivity).
    + by rewrite (Htel _ (mkSettings VNone _kwh))
        by (do 12 right; left; reflexivity).
    + by rewrite (Htel _ (mkSettings VNone _kwh))
        by (do 13 right; left; reflexivity).
    + by rewrite (Htel _ (mkSettings VNone _kwh))
        by (do 14 right; left; reflexivity).
Qed.

Lemma display_after_tick_witness :
  let tw := foldl perform (started example_env)
                  [ ExternalWrite "/Ac/Power" (VStr "n/a") ] in
  (∃ x str, read "/Ac/Power" (_dbusservice (tick asleep tw).2)
            = Ok (of_num x, Ok str))
  ∧ read "/Ac/L3/Energy/Forward" (_dbusservice (started example_env).2)
    = Ok (VNone, Raise TypeError).
Proof.
  destruct (display_after_tick example_env
              [ ExternalWrite "/Ac/Power" (VStr "n/a") ] asleep)
    as [H1 H2].
  split.
  - apply (H1 eq_refl eq_refl). left. reflexivity.
  - apply H2. do 3 right. left. reflexivity.
Defined.

(** ** A close that raises *)

Lemma acquire_with_close (r : reply unit) (c : AuroraSerialClient)
    (w : world) :
  fields (after_acquire (with_close r c) w) = fields (after_acquire c w)
  ∧ wire (after_acquire (with_close r c) w) = wire (after_acquire c w).
Proof.
  unfold after_acquire, _getInverterData, try_finally,
    try_except_AuroraError, connect, time_date, measure, cumulated_energy,
    close, logging_error, of_reply, bind, modify, ret, raise, with_close.
  cbn [connect_reply time_date_reply measure_reply cumulated_energy_reply
       close_reply].
  destruct r as [[]|?]; destruct (close_reply c) as [[]|?];
    (destruct (connect_reply c) as [[]|?]; [|done];
     destruct (time_date_reply c) as [t|?]; [|done];
     destruct (negb (t =? -1)); [|done];
     destruct (measure_reply c 1); [|done];
     destruct (measure_reply c 2); [|done];
     destruct (measure_reply c 3); [|done];
     by destruct (cumulated_energy_reply c 5)).
Qed.

(** X12: when the closing [close] of a session raises, the error leaves
    [_getInverterData] and [_update] after the session has run: the
    attributes are assigned and the requests sent as they are when it does
    not raise, but the [with] block is not reached, so the registry is
    left as it was, cells and notifications; and a timer in working order
    that dispatches such a tick is destroyed with the error recorded, and
    dispatches nothing afterwards. *)
Theorem close_error_skips_publication (c : AuroraSerialClient) (w : world)
    (msg : string) :
  close_reply c = Fail msg →
  _update c w = (Raise (AuroraError msg), after_acquire c w)
  ∧ _dbusservice (after_update c w) = _dbusservice w
  ∧ fields (after_update c w)
    = fields (after_acquire (with_close (Reply tt) c) w)
  ∧ wire (after_update c w) = wire w ++ transcript c
  ∧ ∀ (tw : timeout * world) (acts : list activity),
      healthy tw → tw.2 = w →
      alive (tick c tw).1 = false
      ∧ state (tick c tw).1 = Idle
      ∧ uncaught (tick c tw).1 = [AuroraError msg]
      ∧ dispatched (foldl perform (tick c tw) acts).1 = S (dispatched tw.1)
      ∧ wire (foldl perform (tick c tw) acts).2 = wire w ++ transcript c.
Proof.
  intros Hcl. pose proof (update_close_failed c w msg Hcl) as Hu.
  unfold after_update. rewrite Hu. cbn [snd].
  split; [done|]. split; [apply after_acquire_dbusservice|].
  split; [by destruct (acquire_with_close (Reply tt) c w) as [-> _]|].
  split; [apply session_events|].
  intros tw acts Hh <-.
  destruct (tick_close_failed c tw msg Hh Hcl) as (_ & Ha & Hs & Hx & Hd).
  destruct (dead_foldl acts _ Ha) as [-> ->].
  rewrite tick_healthy_wire by done. by repeat split.
Qed.

Lemma close_error_skips_publication_witness :
  let w := (started example_env).2 in
  _dbusservice (after_update close_fails w) = _dbusservice w
  ∧ fields (after_update close_fails w) = fields (after_acquire scenario w)
  ∧ wire (after_update close_fails w)
    = [ EvConnect; EvTimeDate; EvMeasure 1; EvMeasure 2; EvMeasure 3;
        EvCumulatedEnergy 5; EvClose ].
Proof.
  destruct (close_error_skips_publication close_fails (started example_env).2
              "could not close port" eq_refl) as (_ & Hs & Hf & Hw & _).
  split; [exact Hs|]. split; [exact Hf|].
  rewrite Hw, started_wire. reflexivity.
Defined.
